(** * PyMicrotops: ingestion and Angstrom interpolation

    A shallow embedding of [PyMicrotops/microtops.py] (class [Microtops]):
    [_load_file], [_process_wavelengths] and [aot], followed by the
    properties of the specification that concern them.

    Conventions of the embedding.
    - A Python exception is a value of [exn]; a computation that may raise and
      may [print] lives in the monad [M] (printed lines, then the outcome).
    - A local variable that some path leaves unassigned is an [option]; reading
      it while [None] raises [UnboundLocalError], as CPython does.
    - [range(0, n)] is a list under Python 2 and an immutable range object
      under Python 3; the interpreter is a parameter ([python]) of the model of
      [_load_file], the only function where the difference is observable.
    - pandas, numpy and dateutil are libraries: [read_csv] and the date parser
      are parameters, floating point is an interface ([Float]) whose
      exact-arithmetic instance is the reals.
    - Where the outcome of a library call depends on the version of the
      library (a label slice of a time index that is not in ascending order,
      integers that do not fit numpy's int64, [int] on text that is not
      ASCII), the outcome is a field of the parameter [Library]; on the
      remaining inputs the model computes. *)

From Stdlib Require Import List ZArith Bool String Ascii Lia DecimalString.
From Stdlib Require Import DecimalPos Sorted.
From Stdlib Require Import Reals Lra.
Import ListNotations.

Local Open Scope Z_scope.

(** ** Exceptions, outcomes, and the print/raise monad *)

Inductive exn : Type :=
| ValueError
| IndexError
| KeyError (key : string)
| UnboundLocalError (var : string)
| TypeError
| AttributeError
| OverflowError.

Inductive result (A : Type) : Type :=
| Ok (a : A)
| Raise (e : exn).

Arguments Ok {A} a.
Arguments Raise {A} e.

(** Lines written by [print], in order, and the outcome. *)
Definition M (A : Type) : Type := (list string * result A)%type.

Definition ret {A} (a : A) : M A := ([], Ok a).

Definition raise {A} (e : exn) : M A := ([], Raise e).

Definition bind {A B} (m : M A) (f : A -> M B) : M B :=
  match m with
  | (out, Ok a) => let (out', r) := f a in (out ++ out', r)
  | (out, Raise e) => (out, Raise e)
  end.

Definition print (s : string) : M unit := ([s], Ok tt).

Definition lift {A} (r : result A) : M A := ([], r).

(** [try: body  except ValueError: handler] *)
Definition try_except_ValueError {A} (body handler : M A) : M A :=
  match body with
  | (out, Raise ValueError) => let (out', r) := handler in (out ++ out', r)
  | other => other
  end.

Notation "x <- c1 ;; c2" := (bind c1 (fun x => c2))
  (at level 61, c1 at next level, right associativity).
Notation "c1 ;;; c2" := (bind c1 (fun _ => c2))
  (at level 61, right associativity).

(** Reading a local variable. *)
Definition read_local {A} (name : string) (v : option A) : M A :=
  match v with
  | Some a => ret a
  | None => raise (UnboundLocalError name)
  end.

(** ** The interpreter *)

(** Python 2, or Python 3 (3.6 or later where digit-group underscores are
    concerned). *)
Inductive python : Type := Py2 | Py3.

(** ** Strings *)

(** [sub in s] *)
Fixpoint contains (sub s : string) : bool :=
  if prefix sub s then true
  else match s with
       | EmptyString => false
       | String _ s' => contains sub s'
       end.

(** [s.replace(old, new)] for a non-empty [old]: occurrences are replaced from
    the left and do not overlap; [skip] counts the characters of the current
    occurrence still to be passed over. *)
Fixpoint replace_from (old new s : string) (skip : nat) : string :=
  match s with
  | EmptyString => EmptyString
  | String c r =>
      match skip with
      | S k => replace_from old new r k
      | O => if prefix old s
             then (new ++ replace_from old new r (String.length old - 1))%string
             else String c (replace_from old new r 0)
      end
  end.

Definition replace (old new s : string) : string := replace_from old new s 0.

Definition is_space (c : ascii) : bool :=
  let n := nat_of_ascii c in
  (Nat.eqb n 32 || (Nat.leb 9 n && Nat.leb n 13))%bool.

Fixpoint lstrip (s : string) : string :=
  match s with
  | String c r => if is_space c then lstrip r else s
  | EmptyString => EmptyString
  end.

Fixpoint rstrip (s : string) : string :=
  match s with
  | EmptyString => EmptyString
  | String c r =>
      match rstrip r with
      | EmptyString => if is_space c then EmptyString else String c EmptyString
      | r' => String c r'
      end
  end.

Definition digit_of (c : ascii) : option Z :=
  let n := nat_of_ascii c in
  if (Nat.leb 48 n && Nat.leb n 57)%bool then Some (Z.of_nat (n - 48)) else None.

(** Text is a string of bytes; a byte of 128 or more belongs to a character
    outside ASCII. *)
Definition is_wide (c : ascii) : bool := Nat.leb 128 (nat_of_ascii c).

Fixpoint has_wide (s : string) : bool :=
  match s with
  | EmptyString => false
  | String c r => (is_wide c || has_wide r)%bool
  end.

(** The digits of a decimal numeral, most significant first. With
    [underscores] (Python 3) one underscore may stand between two digits;
    [after_digit] tells whether the previous character was a digit: an
    underscore needs one before it, and so does the end of the numeral. *)
Fixpoint digits_from (underscores after_digit : bool) (acc : Z) (s : string)
    : option Z :=
  match s with
  | EmptyString => if after_digit then Some acc else None
  | String c r =>
      match digit_of c with
      | Some d => digits_from underscores true (10 * acc + d) r
      | None =>
          if (underscores && after_digit && Ascii.eqb c "_")%bool
          then digits_from underscores false acc r
          else None
      end
  end.

Definition unsigned_of (underscores : bool) (s : string) : option Z :=
  digits_from underscores false 0 s.

(** [int(s)] on a string, base ten. On ASCII text: surrounding white space
    (tab, line feed, vertical tab, form feed, carriage return, space) is
    dropped, one sign is allowed, at least one digit is required, leading
    zeros are accepted, and Python 3 accepts single underscores between
    digits; anything else raises [ValueError]. Text with a character outside
    ASCII (the decimal digits and spaces of other scripts, which Python 3
    accepts) is left to [int_unicode], [None] standing for [ValueError]. The
    limit that recent interpreters put on the number of digits is not
    modelled. *)
Definition int_of_str (py : python) (int_unicode : string -> option Z)
    (s : string) : result Z :=
  let parsed :=
    if has_wide s then int_unicode s
    else
      let underscores := match py with Py2 => false | Py3 => true end in
      let body := rstrip (lstrip s) in
      match body with
      | String "-"%char r => option_map Z.opp (unsigned_of underscores r)
      | String "+"%char r => unsigned_of underscores r
      | _ => unsigned_of underscores body
      end in
  match parsed with
  | Some z => Ok z
  | None => Raise ValueError
  end.

(** ['%d' % z] *)
Definition str_of_int (z : Z) : string := NilZero.string_of_int (Z.to_int z).

(** ['AOT%d' % w] *)
Definition aot_name (w : Z) : string := ("AOT" ++ str_of_int w)%string.

(** ** Python sequences used for [to_skip] *)

(** A list, or the object [range(0, stop)] of Python 3. *)
Inductive pyseq : Type :=
| PyList (l : list Z)
| PyRange (stop : Z).

Definition range_list (stop : Z) : list Z :=
  map Z.of_nat (seq 0 (Z.to_nat stop)).

(** [range(0, stop)] *)
Definition range_ (py : python) (stop : Z) : pyseq :=
  match py with
  | Py2 => PyList (range_list stop)
  | Py3 => PyRange stop
  end.

Definition mem (x : Z) (l : list Z) : bool := existsb (Z.eqb x) l.

(** [x in s] *)
Definition seq_in (x : Z) (s : pyseq) : bool :=
  match s with
  | PyList l => mem x l
  | PyRange stop => ((0 <=? x) && (x <? stop))%bool
  end.

(** [s.append(x)]: a range object has no such method. *)
Definition seq_append (s : pyseq) (x : Z) : result pyseq :=
  match s with
  | PyList l => Ok (PyList (l ++ [x]))
  | PyRange _ => Raise AttributeError
  end.

(** [s + l] with [l] a list: a range object does not support [+]. *)
Definition seq_concat (s : pyseq) (l : list Z) : result pyseq :=
  match s with
  | PyList l0 => Ok (PyList (l0 ++ l))
  | PyRange _ => Raise TypeError
  end.

(** ** Ingestion: [Microtops._load_file] *)

(** The [skiprows] argument: [None], an [int], a [list], or anything else. *)
Inductive skiprows_arg : Type :=
| SkipNone
| SkipInt (n : Z)
| SkipList (l : list Z)
| SkipOther (type_name : string).

(** [content.index(x)] *)
Fixpoint list_index (x : string) (content : list string) : result nat :=
  match content with
  | [] => Raise ValueError
  | y :: r =>
      if String.eqb y x then Ok O
      else match list_index x r with
           | Ok i => Ok (S i)
           | Raise e => Raise e
           end
  end.

(** [x in content] *)
Definition list_in (x : string) (content : list string) : bool :=
  existsb (fun y => String.eqb y x) content.

(** [content[-1]] *)
Definition last_item (content : list string) : result string :=
  match rev content with
  | [] => Raise IndexError
  | x :: _ => Ok x
  end.

(** Lines 62-76: the value of the local [to_skip] after the header stage;
    [None] when no branch assigned it. *)
Definition resolve_skiprows (py : python) (content : list string)
    (skiprows : skiprows_arg) (data_start : string) : M (option pyseq) :=
  match skiprows with
  | SkipInt n => ret (Some (range_ py (n + 1)))
  | SkipNone =>
      if list_in data_start content then
        skip <- lift (list_index data_start content) ;;
        ret (Some (range_ py (Z.of_nat skip + 1)))
      else ret (Some (PyList []))
  | SkipList _ => ret None
  | SkipOther ty =>
      print ("Skiprows type not handled: " ++ ty)%string ;;;
      raise TypeError
  end.

(** Lines 88-92: indices of the lines that contain ["Na"]. *)
Fixpoint nan_lines_from (i : Z) (content : list string) : list Z :=
  match content with
  | [] => []
  | line :: r =>
      if contains "Na" line then i :: nan_lines_from (i + 1) r
      else nan_lines_from (i + 1) r
  end.

Definition nan_lines (content : list string) : list Z :=
  nan_lines_from 0 content.

(** Lines 62-97 up to the call of [read_csv]: the value passed as
    [skiprows=to_skip]. [content] is the list of stripped lines of line 59. *)
Definition load_file_to_skip (py : python) (content : list string)
    (skiprows : skiprows_arg) (data_start ending : string) : M pyseq :=
  to_skip <- resolve_skiprows py content skiprows data_start ;;
  last <- lift (last_item content) ;;
  let end_index :=
    if String.eqb last ending then Some (Z.of_nat (List.length content) - 1)
    else None in
  to_skip <-
    match end_index with
    | None => ret to_skip
    | Some e =>
        ts <- read_local "to_skip" to_skip ;;
        if negb (seq_in e ts) then
          ts' <- lift (seq_append ts e) ;; ret (Some ts')
        else ret to_skip
    end ;;
  to_skip <-
    match nan_lines content with
    | [] => ret to_skip
    | nl =>
        ts <- read_local "to_skip" to_skip ;;
        ts' <- lift (seq_concat ts nl) ;; ret (Some ts')
    end ;;
  read_local "to_skip" to_skip.

(** [pd.read_csv(..., skiprows=to_skip)] reads the lines whose 0-based index is
    not in [to_skip]. *)
Fixpoint kept_from (i : Z) (content : list string) (to_skip : pyseq)
    : list (Z * string) :=
  match content with
  | [] => []
  | line :: r =>
      if seq_in i to_skip then kept_from (i + 1) r to_skip
      else (i, line) :: kept_from (i + 1) r to_skip
  end.

Definition kept_lines (content : list string) (to_skip : pyseq)
    : list (Z * string) :=
  kept_from 0 content to_skip.

(** ** The table and its wavelength catalog *)

(** Floating point as the code uses it: [float(int)], [*], [/], [np.log] and
    [**]. numpy's operations on float64 are total (they yield [nan] or [inf]
    and at most warn), hence plain functions. The two quotients by a
    neighbour wavelength (lines 180 and 183) divide a Python float by a numpy
    integer; numpy evaluates them also when the integer is zero, while an
    interpreter that takes a numpy integer for an [int] (Python 2) raises
    [ZeroDivisionError] there. The model follows numpy, and the general
    property on computed values below takes the neighbour wavelengths
    nonzero. *)
Class Float (V : Type) : Type := {
  of_int : Z -> V;
  fmul : V -> V -> V;
  fdiv : V -> V -> V;
  flog : V -> V;
  fpow : V -> V -> V
}.

(** A column of a pandas frame holds floats or text (object dtype). *)
Inductive column (V : Type) : Type :=
| NumCol (vs : list V)
| TxtCol (ts : list string).

Arguments NumCol {V} vs.
Arguments TxtCol {V} ts.

(** [index]: the row labels (time stamps, as integers); [columns]: the named
    columns in file order, each as long as [index]. *)
Record DataFrame (V : Type) : Type := {
  index : list Z;
  columns : list (string * column V)
}.

Arguments index {V} d.
Arguments columns {V} d.

Record Series (V : Type) : Type := {
  s_index : list Z;
  s_values : column V
}.

Arguments s_index {V} s.
Arguments s_values {V} s.

Record Microtops (V : Type) : Type := {
  data : DataFrame V;
  wavelengths : list Z
}.

Arguments data {V} m.
Arguments wavelengths {V} m.

(** ** numpy's int64 *)

(** The element type of [np.array(self.wavelengths)] when every entry fits
    it, numpy's default integer being 64 bits wide (every platform but
    Windows before numpy 2). *)

Definition int64_min : Z := - 2 ^ 63.
Definition int64_max : Z := 2 ^ 63 - 1.

Definition in_int64 (z : Z) : bool :=
  ((int64_min <=? z) && (z <=? int64_max))%bool.

(** The value an int64 result wraps around to. *)
Definition wrap64 (z : Z) : Z := (z + 2 ^ 63) mod 2 ^ 64 - 2 ^ 63.

(** ** What depends on the version of a library *)

(** - [int_unicode]: [int] on text that holds a character outside ASCII.
    - [unsorted_slice]: the rows (as a mask over the index) selected by
      [data[start:end]] when the index is not in ascending order and a bound
      is given; pandas has selected the rows within the bounds, or sliced by
      position, or raised [KeyError], depending on its version and on the
      index.
    - [wide_interpolation]: the interpolation path of [aot] on the sliced
      table when the wavelength or a catalog entry does not fit int64; numpy
      then computes in another dtype or raises [OverflowError], depending on
      its version. *)
Record Library (V : Type) : Type := {
  int_unicode : string -> option Z;
  unsorted_slice : list Z -> option Z -> option Z -> result (list bool);
  wide_interpolation : DataFrame V -> list Z -> Z -> M (Series V)
}.

Arguments int_unicode {V} l.
Arguments unsorted_slice {V} l.
Arguments wide_interpolation {V} l.

Section Table.

Context {V : Type}.

Variable lib : Library V.

(** Rows selected by a boolean mask. *)
Fixpoint select {A : Type} (mask : list bool) (l : list A) : list A :=
  match mask, l with
  | b :: mask', x :: l' => if b then x :: select mask' l' else select mask' l'
  | _, _ => []
  end.

Definition select_col (mask : list bool) (c : column V) : column V :=
  match c with
  | NumCol vs => NumCol (select mask vs)
  | TxtCol ts => TxtCol (select mask ts)
  end.

Definition in_window (start_time end_time : option Z) (t : Z) : bool :=
  (match start_time with Some s => s <=? t | None => true end
   && match end_time with Some e => t <=? e | None => true end)%bool.

(** [index.is_monotonic_increasing] *)
Fixpoint nondecreasing (l : list Z) : bool :=
  match l with
  | a :: (b :: _) as r => ((a <=? b) && nondecreasing r)%bool
  | _ => true
  end.

Definition no_bound (start_time end_time : option Z) : bool :=
  match start_time, end_time with
  | None, None => true
  | _, _ => false
  end.

(** The rows that [data[start_time:end_time]] selects, as a mask over the
    index; a bound is the instant the given time string stands for. Without
    a bound every row is selected; on an index in ascending order label
    slicing selects the rows within the bounds, both ends inclusive. *)
Definition window_mask (idx : list Z) (start_time end_time : option Z)
    : result (list bool) :=
  if (no_bound start_time end_time || nondecreasing idx)%bool
  then Ok (map (in_window start_time end_time) idx)
  else unsorted_slice lib idx start_time end_time.

Definition take_rows (mask : list bool) (d : DataFrame V) : DataFrame V :=
  {| index := select mask (index d);
     columns := map (fun nc => (fst nc, select_col mask (snd nc))) (columns d) |}.

(** [data[start_time:end_time]] (line 143) *)
Definition slice (d : DataFrame V) (start_time end_time : option Z)
    : result (DataFrame V) :=
  match window_mask (index d) start_time end_time with
  | Ok mask => Ok (take_rows mask d)
  | Raise e => Raise e
  end.

Fixpoint find_col (name : string) (cols : list (string * column V))
    : option (column V) :=
  match cols with
  | [] => None
  | (n, c) :: r => if String.eqb n name then Some c else find_col name r
  end.

(** [data[name]] *)
Definition getitem (d : DataFrame V) (name : string) : result (Series V) :=
  match find_col name (columns d) with
  | Some c => Ok {| s_index := index d; s_values := c |}
  | None => Raise (KeyError name)
  end.

(** [[int(x) for x in xs]]: the first failure raises. *)
Fixpoint ints_of (py : python) (xs : list string) : result (list Z) :=
  match xs with
  | [] => Ok []
  | x :: r =>
      match int_of_str py (int_unicode lib) x with
      | Raise e => Raise e
      | Ok z => match ints_of py r with
                | Ok zs => Ok (z :: zs)
                | Raise e => Raise e
                end
      end
  end.

(** [Microtops._process_wavelengths] *)
Definition _process_wavelengths (py : python) (d : DataFrame V)
    : result (list Z) :=
  let aot_cols := filter (contains "AOT") (map fst (columns d)) in
  ints_of py (map (replace "AOT" "") aot_cols).

(** A frame together with the catalog [_process_wavelengths] derives from it:
    the state of a [Microtops] object once its constructor has returned. *)
Definition constructed (py : python) (m : Microtops V) : Prop :=
  _process_wavelengths py (data m) = Ok (wavelengths m).

Section Construction.

(** [pd.read_csv] applied to the lines that are kept, and [dateutil]'s
    [parse]. *)
Variable read_csv : list (Z * string) -> result (DataFrame V).
Variable parse : string -> result Z.

Fixpoint parse_all (l : list string) : result (list Z) :=
  match l with
  | [] => Ok []
  | s :: r =>
      match parse s with
      | Raise e => Raise e
      | Ok t => match parse_all r with
                | Ok ts => Ok (t :: ts)
                | Raise e => Raise e
                end
      end
  end.

Fixpoint zip_with {A B C : Type} (f : A -> B -> C) (l : list A) (l' : list B)
    : list C :=
  match l, l' with
  | a :: r, b :: r' => f a b :: zip_with f r r'
  | _, _ => []
  end.

(** [data.apply(f, axis=1)] with [f(s) = parse(s['DATE'] + " " + s['TIME'])]:
    one call per row. *)
Definition row_stamps (d : DataFrame V) : result (list Z) :=
  match index d with
  | [] => Ok []
  | _ =>
      match find_col "DATE" (columns d) with
      | None => Raise (KeyError "DATE")
      | Some (NumCol _) => Raise TypeError
      | Some (TxtCol dates) =>
          match find_col "TIME" (columns d) with
          | None => Raise (KeyError "TIME")
          | Some (NumCol _) => Raise TypeError
          | Some (TxtCol times) =>
              parse_all
                (zip_with (fun a b => (a ++ " " ++ b)%string) dates times)
          end
      end
  end.

(** [Microtops._load_file] *)
Definition _load_file (py : python) (content : list string)
    (skiprows : skiprows_arg) (data_start ending : string) : M (Microtops V) :=
  to_skip <- load_file_to_skip py content skiprows data_start ending ;;
  d <- lift (read_csv (kept_lines content to_skip)) ;;
  stamps <- lift (row_stamps d) ;;
  let d := {| index := stamps; columns := columns d |} in
  wvs <- lift (_process_wavelengths py d) ;;
  ret {| data := d; wavelengths := wvs |}.

End Construction.

(** ** Queries: [Microtops.aot] *)

Context `{Float V}.

(** [np.argmin]: the first position of the least element; the empty array
    raises [ValueError]. *)
Fixpoint argmin_from (best : Z) (best_i i : nat) (l : list Z) : nat :=
  match l with
  | [] => best_i
  | x :: r =>
      if x <? best then argmin_from x i (S i) r
      else argmin_from best best_i (S i) r
  end.

Definition argmin (l : list Z) : result nat :=
  match l with
  | [] => Raise ValueError
  | x :: r => Ok (argmin_from x 0 1 r)
  end.

(** [wvs[i]] for [i >= 0] *)
Definition item (wvs : list Z) (i : nat) : result Z :=
  match nth_error wvs i with
  | Some w => Ok w
  | None => Raise IndexError
  end.

(** [wvs[-1]] *)
Definition item_last (wvs : list Z) : result Z :=
  match rev wvs with
  | [] => Raise IndexError
  | w :: _ => Ok w
  end.

(** Line 180, for one observation. *)
Definition angstrom (aot_below aot_above wv_below wv_above : V) : V :=
  fmul (of_int (-1))
       (fdiv (flog (fdiv aot_below aot_above))
             (flog (fdiv wv_below wv_above))).

(** Lines 180 and 183, for one observation. *)
Definition interpolate (wavelength wv_below wv_above : Z)
    (aot_below aot_above : V) : V :=
  fmul aot_below
       (fpow (fdiv (of_int wavelength) (of_int wv_below))
             (fmul (of_int (-1))
                   (angstrom aot_below aot_above
                             (of_int wv_below) (of_int wv_above)))).

(** Lines 180-183 on two series of the same frame; arithmetic on a text
    column raises [TypeError]. *)
Definition interpolate_series (wavelength wv_below wv_above : Z)
    (aot_below aot_above : Series V) : result (Series V) :=
  match s_values aot_below, s_values aot_above with
  | NumCol bs, NumCol abs =>
      Ok {| s_index := s_index aot_below;
            s_values :=
              NumCol (zip_with (interpolate wavelength wv_below wv_above)
                               bs abs) |}
  | _, _ => Raise TypeError
  end.

Definition warning : string :=
  "Warning: extrapolating using Angstrom coefficient".

(** Lines 157-174 on the differences of line 156: the locals [wv_below] and
    [wv_above] after the two [try] statements; [wv_above] stays unassigned
    when the second handler runs. *)
Definition neighbours_of (diff wvs : list Z) : M (Z * option Z) :=
  wv_below <-
    try_except_ValueError
      (i <- lift (argmin (filter (fun d => 0 <? d) diff)) ;;
       lift (item wvs i))
      (print warning ;;;
       lift (item wvs 0)) ;;
  try_except_ValueError
    (i <- lift (argmin (filter (fun d => d <? 0) diff)) ;;
     wv_above <- lift (item wvs i) ;;
     ret (wv_below, Some wv_above))
    (print warning ;;;
     wv_below' <- lift (item_last wvs) ;;
     ret (wv_below', None)).

(** Lines 155-174 for a wavelength and a catalog that fit int64:
    [wavelength - wvs] is an int64 array, whose entries wrap around. *)
Definition neighbours (wvs : list Z) (wavelength : Z) : M (Z * option Z) :=
  neighbours_of (map (fun w => wrap64 (wavelength - w)) wvs) wvs.

(** [Microtops.aot]; [wavelength] is the value of [int(wavelength)]
    (line 145). *)
Definition aot (m : Microtops V) (wavelength : Z)
    (start_time end_time : option Z) : M (Series V) :=
  d <- lift (slice (data m) start_time end_time) ;;
  if mem wavelength (wavelengths m) then
    lift (getitem d (aot_name wavelength))
  else if (in_int64 wavelength && forallb in_int64 (wavelengths m))%bool then
    locals <- neighbours (wavelengths m) wavelength ;;
    let wv_below := fst locals in
    aot_below <- lift (getitem d (aot_name wv_below)) ;;
    wv_above <- read_local "wv_above" (snd locals) ;;
    aot_above <- lift (getitem d (aot_name wv_above)) ;;
    lift (interpolate_series wavelength wv_below wv_above aot_below aot_above)
  else wide_interpolation lib d (wavelengths m) wavelength.

End Table.

(** The exact-arithmetic reading of the float interface. *)
#[export] Instance Float_R : Float R := {
  of_int := IZR;
  fmul := Rmult;
  fdiv := Rdiv;
  flog := ln;
  fpow := Rpower
}.

(** ** Sample tables *)

Section Samples.

Context {V : Type}.

(** The file of the specification's example: marker line, header row
    [DATE,TIME,AOT440,AOT675], one reading taken at time [t]. *)
Definition example_file (t : Z) (a440 a675 : V) : Microtops V :=
  {| data :=
       {| index := [t];
          columns := [("DATE", TxtCol ["01/01/24"]);
                      ("TIME", TxtCol ["12:00:00"]);
                      ("AOT440", NumCol [a440]);
                      ("AOT675", NumCol [a675])]%string |};
     wavelengths := [440; 675] |}.

(** Three channels, one reading. *)
Definition three_channel_file (t : Z) (a440 a675 a870 : V) : Microtops V :=
  {| data :=
       {| index := [t];
          columns := [("DATE", TxtCol ["01/01/24"]);
                      ("TIME", TxtCol ["12:00:00"]);
                      ("AOT440", NumCol [a440]);
                      ("AOT675", NumCol [a675]);
                      ("AOT870", NumCol [a870])]%string |};
     wavelengths := [440; 675; 870] |}.

(** The channels listed from the longest wavelength down. *)
Definition descending_file (t : Z) (a675 a440 : V) : Microtops V :=
  {| data :=
       {| index := [t];
          columns := [("DATE", TxtCol ["01/01/24"]);
                      ("TIME", TxtCol ["12:00:00"]);
                      ("AOT675", NumCol [a675]);
                      ("AOT440", NumCol [a440])]%string |};
     wavelengths := [675; 440] |}.

(** A channel whose column name carries a leading zero. *)
Definition leading_zero_file (t : Z) (a440 : V) : Microtops V :=
  {| data :=
       {| index := [t];
          columns := [("DATE", TxtCol ["01/01/24"]);
                      ("TIME", TxtCol ["12:00:00"]);
                      ("AOT0440", NumCol [a440])]%string |};
     wavelengths := [440] |}.

(** A single channel whose wavelength is negative. *)
Definition negative_channel_file (t : Z) (a : V) : Microtops V :=
  {| data :=
       {| index := [t];
          columns := [("DATE", TxtCol ["01/01/24"]);
                      ("TIME", TxtCol ["12:00:00"]);
                      ("AOT-5", NumCol [a])]%string |};
     wavelengths := [-5] |}.

End Samples.

(** One behaviour of the libraries: text outside ASCII is refused, a label
    slice of an unsorted index raises [KeyError], integers beyond int64 raise
    [OverflowError]. *)
Definition strict_library (V : Type) : Library V :=
  {| int_unicode := fun _ => None;
     unsorted_slice := fun _ _ _ => Raise (KeyError "slice");
     wide_interpolation := fun _ _ _ => raise OverflowError |}.

(** A reading whose stored optical thicknesses at 440 and 675 nm are
    negative. *)
Definition negative_file : Microtops R :=
  three_channel_file 0 (-0.2)%R (-0.1)%R (0.05)%R.

(** * Properties *)

(** ** Membership lemmas for the sequences of the ingestion stage *)

Lemma mem_In (x : Z) (l : list Z) : mem x l = true <-> In x l.
Proof.
  unfold mem. rewrite existsb_exists. split.
  - intros [y [Hy Heq]]. apply Z.eqb_eq in Heq. now subst.
  - intros Hin. exists x. split; [assumption | apply Z.eqb_refl].
Qed.

Lemma mem_app (x : Z) (l l' : list Z) :
  mem x (l ++ l') = (mem x l || mem x l')%bool.
Proof. unfold mem. apply existsb_app. Qed.

Lemma mem_single (x y : Z) : mem x [y] = true <-> x = y.
Proof. rewrite mem_In. simpl. intuition. Qed.

Lemma range_list_In (i stop : Z) : In i (range_list stop) <-> 0 <= i < stop.
Proof.
  unfold range_list. rewrite in_map_iff. split.
  - intros [k [Hk Hin]]. apply in_seq in Hin. lia.
  - intros Hi. exists (Z.to_nat i). split; [lia | apply in_seq; lia].
Qed.

Lemma seq_in_range (py : python) (i stop : Z) :
  seq_in i (range_ py stop) = true <-> 0 <= i < stop.
Proof.
  destruct py; simpl.
  - rewrite mem_In. apply range_list_In.
  - rewrite andb_true_iff, Z.leb_le, Z.ltb_lt. tauto.
Qed.

Lemma last_item_nil (content : list string) (e : exn) :
  last_item content = Raise e -> content = [] /\ e = IndexError.
Proof.
  unfold last_item. destruct (rev content) eqn:Hrev; [|discriminate].
  intros [= <-]. split; [|reflexivity].
  apply (f_equal (@rev string)) in Hrev. now rewrite rev_involutive in Hrev.
Qed.

Lemma last_item_cons (content : list string) :
  content <> [] -> exists x, last_item content = Ok x.
Proof.
  intros Hne. destruct (last_item content) as [x|e] eqn:Hl.
  - now exists x.
  - apply last_item_nil in Hl. tauto.
Qed.

Lemma list_in_false (x : string) (content : list string) :
  list_in x content = false <-> (forall line, In line content -> line <> x).
Proof.
  unfold list_in. split.
  - intros Hf line Hin Heq. subst line.
    assert (existsb (fun y => String.eqb y x) content = true) as Ht.
    { apply existsb_exists. exists x. split; [assumption | apply String.eqb_refl]. }
    congruence.
  - intros Hall. destruct (existsb _ content) eqn:He; [|reflexivity].
    apply existsb_exists in He. destruct He as [y [Hin Heq]].
    apply String.eqb_eq in Heq. now apply Hall in Hin.
Qed.

(** [content.index(x)] is the position of the first line equal to [x]. *)
Lemma list_index_first (x : string) (content : list string) (k : nat) :
  list_index x content = Ok k <->
  nth_error content k = Some x /\
  (forall j, (j < k)%nat -> nth_error content j <> Some x).
Proof.
  revert k. induction content as [|y r IH]; intros k; simpl.
  - split; [discriminate|]. intros [Hn _]. now destruct k.
  - destruct (String.eqb y x) eqn:Heq.
    + apply String.eqb_eq in Heq. subst y. split.
      * intros [= <-]. split; [reflexivity | intros j Hj; lia].
      * intros [_ Hfirst]. destruct k as [|k]; [reflexivity|].
        exfalso. apply (Hfirst O); [lia | reflexivity].
    + apply String.eqb_neq in Heq. destruct k as [|k].
      * split.
        -- destruct (list_index x r); discriminate.
        -- intros [[= Hy] _]. congruence.
      * specialize (IH k). split.
        -- destruct (list_index x r) as [i|e]; [|discriminate].
           intros [= ->]. destruct IH as [IH _].
           destruct (IH eq_refl) as [Hn Hfirst]. split; [exact Hn|].
           intros [|j] Hj; simpl; [congruence | apply Hfirst; lia].
        -- intros [Hn Hfirst]. destruct IH as [_ IH].
           rewrite IH; [reflexivity|]. split; [exact Hn|].
           intros j Hj. apply (Hfirst (S j)). lia.
Qed.

Lemma list_index_total (x : string) (content : list string) :
  list_in x content = true -> exists k, list_index x content = Ok k.
Proof.
  unfold list_in. induction content as [|y r IH]; simpl; [discriminate|].
  destruct (String.eqb y x); [now exists O|]. simpl. intros Hin.
  destruct (IH Hin) as [k ->]. now exists (S k).
Qed.

Lemma nan_lines_from_In (i b : Z) (content : list string) :
  In i (nan_lines_from b content) <->
  exists k line, nth_error content k = Some line /\ i = b + Z.of_nat k /\
                 contains "Na" line = true.
Proof.
  revert b. induction content as [|l r IH]; intros b; simpl.
  - split; [tauto|]. intros [[|k] [line [Hn _]]]; discriminate.
  - assert (In i (nan_lines_from (b + 1) r) <->
            exists k line, nth_error r k = Some line /\
                           i = b + Z.of_nat (S k) /\
                           contains "Na" line = true) as IH'.
    { rewrite IH. split; intros [k [line [Hn [Hi Hc]]]]; exists k, line;
        (split; [exact Hn | split; [lia | exact Hc]]). }
    destruct (contains "Na" l) eqn:Hc; simpl; rewrite IH'; split.
    + intros [<- | [k [line Hk]]].
      * exists O, l. simpl. repeat split; [lia | exact Hc].
      * exists (S k), line. exact Hk.
    + intros [[|k] [line [Hn [Hi Hcl]]]].
      * left. simpl in Hn. lia.
      * right. exists k, line. auto.
    + intros [k [line Hk]]. exists (S k), line. exact Hk.
    + intros [[|k] [line [Hn [Hi Hcl]]]].
      * simpl in Hn. congruence.
      * exists k, line. auto.
Qed.

Lemma nan_lines_In (i : Z) (content : list string) :
  In i (nan_lines content) <->
  exists k line, nth_error content k = Some line /\ i = Z.of_nat k /\
                 contains "Na" line = true.
Proof. unfold nan_lines. rewrite nan_lines_from_In. reflexivity. Qed.

Lemma kept_from_In (i b : Z) (line : string) (content : list string)
    (to_skip : pyseq) :
  In (i, line) (kept_from b content to_skip) <->
  exists k, nth_error content k = Some line /\ i = b + Z.of_nat k /\
            seq_in i to_skip = false.
Proof.
  revert b. induction content as [|l r IH]; intros b; simpl.
  - split; [tauto|]. intros [[|k] [Hn _]]; discriminate.
  - assert (In (i, line) (kept_from (b + 1) r to_skip) <->
            exists k, nth_error r k = Some line /\ i = b + Z.of_nat (S k) /\
                      seq_in i to_skip = false) as IH'.
    { rewrite IH. split; intros [k [Hn [Hi Hs]]]; exists k;
        (split; [exact Hn | split; [lia | exact Hs]]). }
    destruct (seq_in b to_skip) eqn:Hb; simpl; rewrite IH'; split.
    + intros [k Hk]. exists (S k). exact Hk.
    + intros [[|k] [Hn [Hi Hs]]].
      * replace i with b in Hs by lia. congruence.
      * exists k. auto.
    + intros [[= <- <-] | [k Hk]].
      * exists O. simpl. repeat split; [lia | exact Hb].
      * exists (S k). exact Hk.
    + intros [[|k] [Hn [Hi Hs]]].
      * left. simpl in Hn. injection Hn as ->. f_equal. lia.
      * right. exists k. auto.
Qed.

Lemma kept_lines_In (i : Z) (line : string) (content : list string)
    (to_skip : pyseq) :
  In (i, line) (kept_lines content to_skip) <->
  exists k, nth_error content k = Some line /\ i = Z.of_nat k /\
            seq_in i to_skip = false.
Proof. unfold kept_lines. rewrite kept_from_In. reflexivity. Qed.

Lemma contains_tail (sub : string) (c : ascii) (s : string) :
  contains sub s = true -> contains sub (String c s) = true.
Proof.
  intros Hc. cbn [contains]. rewrite Hc. now destruct (prefix sub (String c s)).
Qed.

(** A line that contains ["NaN"] contains ["Na"]. *)
Lemma contains_NaN_Na (s : string) :
  contains "NaN" s = true -> contains "Na" s = true.
Proof.
  induction s as [|c s IH]; [discriminate|].
  cbn [contains]. destruct (prefix "NaN" (String c s)) eqn:Hp.
  - intros _.
    assert (prefix "Na" (String c s) = true) as ->; [|reflexivity].
    cbn [prefix] in Hp |- *. destruct (ascii_dec "N" c); [|discriminate].
    destruct s as [|c' s']; [discriminate|].
    cbn [prefix] in Hp |- *.
    destruct (ascii_dec "a" c'); [now destruct s' | discriminate].
  - intros Hc. rewrite (IH Hc). now destruct (prefix "Na" (String c s)).
Qed.

(** ** The discard set computed by [_load_file] *)

Lemma resolve_skiprows_cases (py : python) (content : list string)
    (skiprows : skiprows_arg) (data_start : string) :
  (exists o, resolve_skiprows py content skiprows data_start = ([], Ok o)) \/
  (exists msg, resolve_skiprows py content skiprows data_start
               = ([msg], Raise TypeError)).
Proof.
  destruct skiprows as [|n|l|ty]; simpl.
  - left. destruct (list_in data_start content) eqn:Hin.
    + destruct (list_index_total _ _ Hin) as [k ->]. eexists. reflexivity.
    + eexists. reflexivity.
  - left. eexists. reflexivity.
  - left. eexists. reflexivity.
  - right. eexists. reflexivity.
Qed.

Lemma load_file_to_skip_Ok (py : python) (content : list string)
    (skiprows : skiprows_arg) (data_start ending : string)
    (out : list string) (ts : pyseq) :
  load_file_to_skip py content skiprows data_start ending = (out, Ok ts) ->
  exists hs,
    resolve_skiprows py content skiprows data_start = ([], Ok (Some hs)) /\
    forall i, seq_in i ts = true <->
      seq_in i hs = true \/
      (last_item content = Ok ending /\
       i = Z.of_nat (List.length content) - 1) \/
      In i (nan_lines content).
Proof.
  unfold load_file_to_skip.
  destruct (resolve_skiprows_cases py content skiprows data_start)
    as [[o Hr] | [msg Hr]]; rewrite Hr; [|simpl; discriminate].
  destruct (last_item content) as [last|e] eqn:Hl; [|simpl; discriminate].
  destruct o as [hs|].
  2: { simpl. destruct (String.eqb last ending); simpl; [discriminate|].
       destruct (nan_lines content); simpl; discriminate. }
  simpl. destruct (String.eqb last ending) eqn:He; simpl.
  - apply String.eqb_eq in He. subst last.
    destruct (seq_in (Z.of_nat (List.length content) - 1) hs) eqn:Hin; simpl.
    + destruct (nan_lines content) as [|n nl] eqn:Hn; simpl.
      * intros [= <- <-]. exists hs. split; [reflexivity|]. intros i. split.
        -- auto.
        -- intros [Hi | [[_ ->] | []]]; assumption.
      * destruct hs as [l|stop]; simpl; [|discriminate].
        intros [= <- <-]. exists (PyList l). split; [reflexivity|].
        intros i. simpl. rewrite mem_app, orb_true_iff, (mem_In i (n :: nl)).
        split.
        -- intros [Hi | Hi]; auto.
        -- intros [Hi | [[_ ->] | Hi]]; auto.
    + destruct hs as [l|stop]; simpl; [|discriminate].
      destruct (nan_lines content) as [|n nl] eqn:Hn; simpl.
      * intros [= <- <-]. exists (PyList l). split; [reflexivity|].
        intros i. simpl. rewrite mem_app, orb_true_iff, mem_single.
        split.
        -- intros [Hi | Hi]; auto.
        -- intros [Hi | [[_ ->] | []]]; auto.
      * intros [= <- <-]. exists (PyList l). split; [reflexivity|].
        intros i. simpl.
        rewrite !mem_app, !orb_true_iff, mem_single, (mem_In i (n :: nl)).
        split.
        -- intros [[Hi | Hi] | Hi]; auto.
        -- intros [Hi | [[_ ->] | Hi]]; auto.
  - apply String.eqb_neq in He.
    destruct (nan_lines content) as [|n nl] eqn:Hn; simpl.
    + intros [= <- <-]. exists hs. split; [reflexivity|]. intros i. split.
      * auto.
      * intros [Hi | [[[= Hi] _] | []]]; [assumption | congruence].
    + destruct hs as [l|stop]; simpl; [|discriminate].
      intros [= <- <-]. exists (PyList l). split; [reflexivity|].
      intros i. simpl. rewrite mem_app, orb_true_iff, (mem_In i (n :: nl)).
      split.
      * intros [Hi | Hi]; auto.
      * intros [Hi | [[[= Hi] _] | Hi]]; [auto | congruence | auto].
Qed.

(** X4: under Python 2, where [range] returns a list, the modes [None] and
    [int] always reach [read_csv] on a non-empty file, and print nothing. *)
Lemma load_file_to_skip_py2_total (content : list string)
    (skiprows : skiprows_arg) (data_start ending : string) :
  content <> [] ->
  (skiprows = SkipNone \/ exists n, skiprows = SkipInt n) ->
  exists l, load_file_to_skip Py2 content skiprows data_start ending
            = ([], Ok (PyList l)).
Proof.
  intros Hne Hmode.
  assert (exists hs, resolve_skiprows Py2 content skiprows data_start
                     = ([], Ok (Some (PyList hs)))) as [hs Hr].
  { destruct Hmode as [-> | [n ->]]; simpl.
    - destruct (list_in data_start content) eqn:Hin.
      + destruct (list_index_total _ _ Hin) as [k ->]. eexists. reflexivity.
      + eexists. reflexivity.
    - eexists. reflexivity. }
  destruct (last_item_cons content Hne) as [last Hl].
  unfold load_file_to_skip. rewrite Hr, Hl. simpl.
  destruct (String.eqb last ending); simpl.
  - destruct (mem (Z.of_nat (List.length content) - 1) hs); simpl;
      destruct (nan_lines content); simpl; eexists; reflexivity.
  - destruct (nan_lines content); simpl; eexists; reflexivity.
Qed.

(** Under Python 3 a footer that the header range does not already cover
    cannot be appended: [range] has no [append]. This is the case of an
    [int] mode, and of the auto-detect mode when the marker is found. *)
Lemma footer_append_py3 (content : list string) (skiprows : skiprows_arg)
    (stop : Z) (data_start ending : string) :
  resolve_skiprows Py3 content skiprows data_start
  = ([], Ok (Some (PyRange stop))) ->
  last_item content = Ok ending ->
  stop < Z.of_nat (List.length content) ->
  load_file_to_skip Py3 content skiprows data_start ending
  = ([], Raise AttributeError).
Proof.
  intros Hr Hl Hn. unfold load_file_to_skip. rewrite Hr, Hl. simpl.
  rewrite String.eqb_refl. simpl.
  replace (Z.of_nat (List.length content) - 1 <? stop) with false
    by (symmetry; apply Z.ltb_ge; lia).
  rewrite andb_false_r. reflexivity.
Qed.

(** *** Claim C2 *)

(** C2 (the code departs from it): with [skiprows] a list, no branch of lines
    62-76 assigns [to_skip], so construction never reaches [read_csv]: it
    raises [UnboundLocalError] on every non-empty file ([IndexError] on an
    empty one), whatever the list, the markers and the interpreter. *)
Theorem load_file_list_mode_raises {V : Type} (lib : Library V)
    (read_csv : list (Z * string) -> result (DataFrame V))
    (parse : string -> result Z) (py : python) (content : list string)
    (l : list Z) (data_start ending : string) :
  _load_file lib read_csv parse py content (SkipList l) data_start ending
  = ([], Raise match content with
               | [] => IndexError
               | _ => UnboundLocalError "to_skip"
               end).
Proof.
  unfold _load_file, load_file_to_skip. simpl.
  destruct (last_item content) as [last|e] eqn:Hl.
  - assert (content <> []) as Hne by (intros ->; discriminate).
    destruct content as [|c0 r]; [congruence|]. simpl.
    destruct (String.eqb last ending); simpl; [reflexivity|].
    destruct (nan_lines (c0 :: r)); reflexivity.
  - apply last_item_nil in Hl. destruct Hl as [-> ->]. reflexivity.
Qed.

(** *** Claim C3 *)

(** C3 (the code departs from it): when the last line equals the footer marker
    and [skiprows] is a list, line 84 reads the unassigned [to_skip] and
    raises [UnboundLocalError]; the footer index is not added to any discard
    set. *)
Theorem footer_list_mode_raises (py : python) (content : list string)
    (l : list Z) (data_start ending : string) :
  last_item content = Ok ending ->
  load_file_to_skip py content (SkipList l) data_start ending
  = ([], Raise (UnboundLocalError "to_skip")).
Proof.
  intros Hl. unfold load_file_to_skip. simpl. rewrite Hl. simpl.
  rewrite String.eqb_refl. reflexivity.
Qed.

Lemma footer_list_mode_raises_witness :
  load_file_to_skip Py2
    ["FIELDS:"; "DATE,TIME,AOT440,AOT675"; "01/01/24,12:00:00,0.20,0.10";
     "END."]%string
    (SkipList [0]) "FIELDS:" "END."
  = ([], Raise (UnboundLocalError "to_skip")).
Proof. apply footer_list_mode_raises. reflexivity. Defined.

(** X5: whenever construction reaches [read_csv] and the last line equals the
    footer marker, the index of that last line is in the discard set. *)
Lemma footer_discarded (py : python) (content : list string)
    (skiprows : skiprows_arg) (data_start ending : string)
    (out : list string) (ts : pyseq) :
  load_file_to_skip py content skiprows data_start ending = (out, Ok ts) ->
  last_item content = Ok ending ->
  seq_in (Z.of_nat (List.length content) - 1) ts = true.
Proof.
  intros Hok Hl. destruct (load_file_to_skip_Ok _ _ _ _ _ _ _ Hok) as [hs [_ Hts]].
  apply Hts. right. left. split; [exact Hl | reflexivity].
Qed.

(** *** Claim C8 *)

Lemma load_file_to_skip_list_mode (py : python) (content : list string)
    (l : list Z) (data_start ending : string) :
  content <> [] ->
  load_file_to_skip py content (SkipList l) data_start ending
  = ([], Raise (UnboundLocalError "to_skip")).
Proof.
  intros Hne. destruct (last_item_cons content Hne) as [last Hl].
  unfold load_file_to_skip. simpl. rewrite Hl. simpl.
  destruct (String.eqb last ending); simpl; [reflexivity|].
  destruct (nan_lines content); reflexivity.
Qed.

(** Under Python 3 a line that contains ["Na"] cannot be added to a header
    range: [range + list] is a [TypeError] (line 95), unless the footer has
    raised [AttributeError] before (line 85). *)
Lemma nan_concat_py3 (content : list string) (skiprows : skiprows_arg)
    (stop : Z) (data_start ending : string) :
  resolve_skiprows Py3 content skiprows data_start
  = ([], Ok (Some (PyRange stop))) ->
  nan_lines content <> [] ->
  exists e,
    load_file_to_skip Py3 content skiprows data_start ending = ([], Raise e) /\
    (e = AttributeError \/ e = TypeError).
Proof.
  intros Hr Hnan.
  assert (content <> []) as Hne by (intros ->; now apply Hnan).
  destruct (last_item_cons content Hne) as [last Hl].
  unfold load_file_to_skip. rewrite Hr, Hl. simpl.
  destruct (String.eqb last ending); simpl.
  - destruct ((0 <=? Z.of_nat (List.length content) - 1)
              && (Z.of_nat (List.length content) - 1 <? stop))%bool; simpl.
    + destruct (nan_lines content); [congruence|]. simpl. eauto.
    + eauto.
  - destruct (nan_lines content); [congruence|]. simpl. eauto.
Qed.

(** C8 (the code departs from it): a line that contains ["Na"] is recorded in
    [nan_lines], but construction then fails instead of discarding it
    - when [skiprows] is a list, under either interpreter: [to_skip] was never
      assigned, and [UnboundLocalError] is raised (at line 95,
      [to_skip = to_skip + nan_lines], unless line 84 has raised it already);
    - under Python 3, in the count mode and in the auto-detect mode with the
      marker present: [to_skip] is a [range] object, and line 95 raises
      [TypeError] (unless line 85 has raised [AttributeError] already).
    In each case nothing is printed and [read_csv] is not called. *)
Theorem nan_line_raises {V : Type} (lib : Library V)
    (read_csv : list (Z * string) -> result (DataFrame V))
    (parse : string -> result Z) (content : list string)
    (data_start ending : string) (k : nat) (line : string) :
  nth_error content k = Some line ->
  contains "Na" line = true ->
  In (Z.of_nat k) (nan_lines content) /\
  (forall py l,
      _load_file lib read_csv parse py content (SkipList l) data_start ending
      = ([], Raise (UnboundLocalError "to_skip"))) /\
  (forall skiprows,
      (exists n, skiprows = SkipInt n) \/
      (skiprows = SkipNone /\ In data_start content) ->
      exists e,
        _load_file lib read_csv parse Py3 content skiprows data_start ending
        = ([], Raise e) /\
        (e = AttributeError \/ e = TypeError)).
Proof.
  intros Hk Hna.
  assert (In (Z.of_nat k) (nan_lines content)) as Hin
      by (apply nan_lines_In; now exists k, line).
  assert (content <> []) as Hne by (intros ->; now destruct k).
  split; [exact Hin | split].
  - intros py l. unfold _load_file.
    rewrite (load_file_to_skip_list_mode py content l data_start ending Hne).
    reflexivity.
  - intros skiprows Hmode.
    assert (exists stop, resolve_skiprows Py3 content skiprows data_start
                         = ([], Ok (Some (PyRange stop)))) as [stop Hr].
    { destruct Hmode as [[n ->] | [-> Hd]]; simpl.
      - eexists. reflexivity.
      - assert (list_in data_start content = true) as Hlin.
        { destruct (list_in data_start content) eqn:Hf; [reflexivity|].
          rewrite list_in_false in Hf. now apply Hf in Hd. }
        rewrite Hlin. destruct (list_index_total _ _ Hlin) as [i ->].
        eexists. reflexivity. }
    assert (nan_lines content <> []) as Hnan
        by (intros Hnil; rewrite Hnil in Hin; exact Hin).
    destruct (nan_concat_py3 content skiprows stop data_start ending Hr Hnan)
      as [e [He Hcase]].
    exists e. split; [|exact Hcase].
    unfold _load_file. rewrite He. reflexivity.
Qed.

Lemma nan_line_raises_witness :
  let content :=
    ["FIELDS:"; "DATE,TIME,AOT440"; "01/01/24,12:00:00,NaN";
     "01/01/24,12:05:00,0.2"]%string in
  let read_csv := fun _ : list (Z * string) =>
    Ok {| index := []; columns := @nil (string * column R) |} in
  In (Z.of_nat 2) (nan_lines content) /\
  (forall py l,
      _load_file (strict_library R) read_csv (fun _ => Ok 0) py content
                 (SkipList l) "FIELDS:" "END."
      = ([], Raise (UnboundLocalError "to_skip"))) /\
  (forall skiprows,
      (exists n, skiprows = SkipInt n) \/
      (skiprows = SkipNone /\ In "FIELDS:"%string content) ->
      exists e,
        _load_file (strict_library R) read_csv (fun _ => Ok 0) Py3 content
                   skiprows "FIELDS:" "END."
        = ([], Raise e) /\
        (e = AttributeError \/ e = TypeError)).
Proof.
  intros content read_csv.
  apply (nan_line_raises (strict_library R) read_csv (fun _ => Ok 0) content
           "FIELDS:" "END." 2 "01/01/24,12:00:00,NaN"); reflexivity.
Defined.

(** On the file of that kind without a footer, read by Python 3 in the
    default mode, the error is the [TypeError] of line 95. *)
Lemma nan_line_py3_default {V : Type} (lib : Library V)
    (read_csv : list (Z * string) -> result (DataFrame V))
    (parse : string -> result Z) :
  _load_file lib read_csv parse Py3
    ["FIELDS:"; "DATE,TIME,AOT440"; "01/01/24,12:00:00,NaN";
     "01/01/24,12:05:00,0.2"]%string
    SkipNone "FIELDS:" "END."
  = ([], Raise TypeError).
Proof. reflexivity. Qed.

(** [read_csv] is applied to the lines that are kept, and the object built
    depends on the file through them only. *)
Lemma load_file_reads_kept {V : Type} (lib : Library V)
    (read_csv read_csv' : list (Z * string) -> result (DataFrame V))
    (parse : string -> result Z) (py : python) (content : list string)
    (skiprows : skiprows_arg) (data_start ending : string)
    (out : list string) (ts : pyseq) :
  load_file_to_skip py content skiprows data_start ending = (out, Ok ts) ->
  read_csv (kept_lines content ts) = read_csv' (kept_lines content ts) ->
  _load_file lib read_csv parse py content skiprows data_start ending
  = _load_file lib read_csv' parse py content skiprows data_start ending.
Proof.
  intros Hts Hread. unfold _load_file. rewrite Hts. cbn [bind].
  rewrite Hread. reflexivity.
Qed.

(** X19: whenever ingestion reaches [read_csv], every line of the original
    line set that contains ["Na"] (in particular every line that contains
    ["NaN"]), discarded already or not, has its index in the discard set, and
    no line with that index is among the lines handed to [read_csv], through
    which alone the outcome of construction depends on the parser. *)
Theorem nan_lines_excluded {V : Type} (lib : Library V)
    (parse : string -> result Z) (py : python) (content : list string)
    (skiprows : skiprows_arg) (data_start ending : string)
    (out : list string) (ts : pyseq) (k : nat) (line : string) :
  load_file_to_skip py content skiprows data_start ending = (out, Ok ts) ->
  nth_error content k = Some line ->
  contains "Na" line = true \/ contains "NaN" line = true ->
  seq_in (Z.of_nat k) ts = true /\
  (forall line', ~ In (Z.of_nat k, line') (kept_lines content ts)) /\
  (forall read_csv read_csv' : list (Z * string) -> result (DataFrame V),
      read_csv (kept_lines content ts) = read_csv' (kept_lines content ts) ->
      _load_file lib read_csv parse py content skiprows data_start ending
      = _load_file lib read_csv' parse py content skiprows data_start ending).
Proof.
  intros Hok Hk Hna.
  assert (contains "Na" line = true) as Hc.
  { destruct Hna as [Hc | Hc]; [exact Hc | now apply contains_NaN_Na]. }
  destruct (load_file_to_skip_Ok _ _ _ _ _ _ _ Hok) as [hs [_ Hts]].
  assert (seq_in (Z.of_nat k) ts = true) as Hin.
  { apply Hts. right. right. apply nan_lines_In. now exists k, line. }
  split; [exact Hin | split].
  - intros line' Hkept. apply kept_lines_In in Hkept.
    destruct Hkept as [k' [_ [_ Hout]]]. congruence.
  - intros read_csv read_csv' Hread.
    now apply (load_file_reads_kept lib read_csv read_csv' parse py content
                 skiprows data_start ending out ts).
Qed.

Lemma nan_lines_excluded_witness :
  let content :=
    ["junk"; "FIELDS:"; "DATE,TIME,AOT440"; "01/01/24,12:00:00,NaN";
     "01/01/24,12:05:00,0.2"; "END."]%string in
  let ts := PyList [0; 1; 5; 3] in
  seq_in 3 ts = true /\
  (forall line', ~ In (3, line') (kept_lines content ts)) /\
  (forall read_csv read_csv' : list (Z * string) -> result (DataFrame R),
      read_csv (kept_lines content ts) = read_csv' (kept_lines content ts) ->
      _load_file (strict_library R) read_csv (fun _ => Ok 0) Py2 content
                 SkipNone "FIELDS:" "END."
      = _load_file (strict_library R) read_csv' (fun _ => Ok 0) Py2 content
                   SkipNone "FIELDS:" "END.").
Proof.
  intros content ts.
  apply (nan_lines_excluded (strict_library R) (fun _ => Ok 0) Py2 content
           SkipNone "FIELDS:" "END." [] ts 3 "01/01/24,12:00:00,NaN");
    [reflexivity | reflexivity | left; reflexivity].
Defined.

(** *** Claim C9 *)

Lemma last_item_nth (content : list string) (x : string) :
  last_item content = Ok x ->
  nth_error content (List.length content - 1) = Some x.
Proof.
  unfold last_item. destruct (rev content) as [|y r] eqn:Hrev; [discriminate|].
  intros [= ->]. apply (f_equal (@rev string)) in Hrev.
  rewrite rev_involutive in Hrev. subst content. simpl.
  rewrite length_app, nth_error_app2; rewrite length_rev; simpl.
  - replace (List.length r + 1 - 1 - List.length r)%nat with O by lia. reflexivity.
  - lia.
Qed.

(** C9 (the code departs from it): under Python 3, in the auto-detect mode,
    when some line equals the header marker and the last line equals the
    footer marker, the header stage sets [to_skip] to the object
    [range(0, k+1)] and line 85 calls [append] on it: construction raises
    [AttributeError] and discards nothing; [read_csv] is not called. *)
Theorem auto_detect_footer_py3_raises {V : Type} (lib : Library V)
    (read_csv : list (Z * string) -> result (DataFrame V))
    (parse : string -> result Z) (content : list string)
    (data_start ending : string) :
  In data_start content ->
  last_item content = Ok ending ->
  data_start <> ending ->
  (exists k, nth_error content k = Some data_start /\
             (forall j, (j < k)%nat -> nth_error content j <> Some data_start) /\
             resolve_skiprows Py3 content SkipNone data_start
             = ([], Ok (Some (PyRange (Z.of_nat k + 1))))) /\
  _load_file lib read_csv parse Py3 content SkipNone data_start ending
  = ([], Raise AttributeError).
Proof.
  intros Hin Hl Hne.
  assert (list_in data_start content = true) as Hlin.
  { destruct (list_in data_start content) eqn:Hf; [reflexivity|].
    rewrite list_in_false in Hf. now apply Hf in Hin. }
  destruct (list_index_total _ _ Hlin) as [k Hidx].
  pose proof Hidx as Hk. apply list_index_first in Hk.
  destruct Hk as [Hk Hfirst].
  assert (resolve_skiprows Py3 content SkipNone data_start
          = ([], Ok (Some (PyRange (Z.of_nat k + 1))))) as Hr.
  { simpl. rewrite Hlin, Hidx. reflexivity. }
  split; [exists k; repeat split; assumption|].
  assert (k < List.length content - 1)%nat as Hlt.
  { pose proof (last_item_nth content ending Hl) as Hlast.
    assert (k < List.length content)%nat by (apply nth_error_Some; congruence).
    assert (k <> List.length content - 1)%nat by (intros ->; congruence).
    lia. }
  unfold _load_file.
  rewrite (footer_append_py3 content SkipNone (Z.of_nat k + 1) data_start
             ending Hr Hl) by lia.
  reflexivity.
Qed.

Lemma auto_detect_footer_py3_raises_witness :
  let content :=
    ["FIELDS:"; "DATE,TIME,AOT440,AOT675"; "01/01/24,12:00:00,0.20,0.10";
     "END."]%string in
  (exists k, nth_error content k = Some "FIELDS:"%string /\
             (forall j, (j < k)%nat ->
                        nth_error content j <> Some "FIELDS:"%string) /\
             resolve_skiprows Py3 content SkipNone "FIELDS:"
             = ([], Ok (Some (PyRange (Z.of_nat k + 1))))) /\
  _load_file (strict_library R) (fun _ => Ok {| index := []; columns := [] |})
             (fun _ => Ok 0) Py3 content SkipNone "FIELDS:" "END."
  = ([], Raise AttributeError).
Proof.
  intro content.
  apply (auto_detect_footer_py3_raises (strict_library R) _ _ content
           "FIELDS:" "END.").
  - simpl. left. reflexivity.
  - reflexivity.
  - discriminate.
Defined.

(** X20: in the auto-detect mode ([skiprows=None]), when the first line equal to
    the marker is at position [k], the header stage sets [to_skip] to
    [range(0, k+1)], and, whenever ingestion reaches [read_csv], the discard
    set handed to it holds the indices [0..k] and, beyond them, only the
    footer index and the indices of the lines that contain ["Na"]; when no
    line equals the marker, the header stage sets [to_skip] to the empty list
    and the discard set holds only the footer index and those indices. *)
Theorem auto_detect_discards (py : python) (content : list string)
    (data_start ending : string) (out : list string) (ts : pyseq) :
  load_file_to_skip py content SkipNone data_start ending = (out, Ok ts) ->
  let other i :=
    (last_item content = Ok ending /\ i = Z.of_nat (List.length content) - 1)
    \/ In i (nan_lines content) in
  (forall k,
      nth_error content k = Some data_start ->
      (forall j, (j < k)%nat -> nth_error content j <> Some data_start) ->
      resolve_skiprows py content SkipNone data_start
      = ([], Ok (Some (range_ py (Z.of_nat k + 1)))) /\
      forall i, seq_in i ts = true <-> 0 <= i <= Z.of_nat k \/ other i) /\
  ((forall line, In line content -> line <> data_start) ->
      resolve_skiprows py content SkipNone data_start
      = ([], Ok (Some (PyList []))) /\
      forall i, seq_in i ts = true <-> other i).
Proof.
  intros Hok other.
  destruct (load_file_to_skip_Ok _ _ _ _ _ _ _ Hok) as [hs [Hr Hts]].
  split.
  - intros k Hk Hfirst.
    assert (list_index data_start content = Ok k) as Hidx
        by (apply list_index_first; auto).
    assert (list_in data_start content = true) as Hin.
    { destruct (list_in data_start content) eqn:Hin; [reflexivity|].
      rewrite list_in_false in Hin. exfalso.
      apply (Hin data_start); [eapply nth_error_In; eassumption | reflexivity]. }
    assert (resolve_skiprows py content SkipNone data_start
            = ([], Ok (Some (range_ py (Z.of_nat k + 1))))) as Hr'.
    { simpl. rewrite Hin, Hidx. reflexivity. }
    split; [exact Hr'|].
    rewrite Hr' in Hr. injection Hr as <-.
    intros i. rewrite Hts, seq_in_range. unfold other.
    split; (intros [Hi | Hi]; [left; lia | right; exact Hi]).
  - intros Habsent. apply list_in_false in Habsent.
    assert (resolve_skiprows py content SkipNone data_start
            = ([], Ok (Some (PyList [])))) as Hr'.
    { simpl. rewrite Habsent. reflexivity. }
    split; [exact Hr'|].
    rewrite Hr' in Hr. injection Hr as <-.
    intros i. rewrite Hts. unfold other. simpl.
    split; [intros [Hi | Hi]; [discriminate | exact Hi] | auto].
Qed.

Lemma auto_detect_discards_witness :
  let content :=
    ["junk"; "FIELDS:"; "DATE,TIME,AOT440"; "01/01/24,12:00:00,NaN";
     "01/01/24,12:05:00,0.2"; "END."]%string in
  resolve_skiprows Py2 content SkipNone "FIELDS:"
  = ([], Ok (Some (range_ Py2 (Z.of_nat 1 + 1)))) /\
  forall i, seq_in i (PyList [0; 1; 5; 3]) = true <->
            0 <= i <= Z.of_nat 1 \/
            (last_item content = Ok "END."%string /\
             i = Z.of_nat (List.length content) - 1) \/
            In i (nan_lines content).
Proof.
  intro content.
  destruct (auto_detect_discards Py2 content "FIELDS:" "END." []
              (PyList [0; 1; 5; 3]) eq_refl) as [Hpresent _].
  apply (Hpresent 1%nat eq_refl).
  intros j Hj. destruct j as [|j]; [discriminate | lia].
Defined.

(** ** Lemmas on the query engine *)

Lemma filter_all {A : Type} (f : A -> bool) (l : list A) :
  (forall x, In x l -> f x = true) -> filter f l = l.
Proof.
  induction l as [|a l IH]; intros Hall; simpl; [reflexivity|].
  rewrite (Hall a (or_introl eq_refl)). f_equal. apply IH.
  intros x Hx. apply Hall. now right.
Qed.

Lemma filter_none {A : Type} (f : A -> bool) (l : list A) :
  (forall x, In x l -> f x = false) -> filter f l = [].
Proof.
  induction l as [|a l IH]; intros Hall; simpl; [reflexivity|].
  rewrite (Hall a (or_introl eq_refl)). apply IH.
  intros x Hx. apply Hall. now right.
Qed.

Lemma argmin_from_lt (l : list Z) (best : Z) (best_i i : nat) :
  (best_i < i)%nat -> (argmin_from best best_i i l < i + List.length l)%nat.
Proof.
  revert best best_i i. induction l as [|x r IH]; intros best best_i i Hlt; simpl.
  - lia.
  - destruct (x <? best).
    + specialize (IH x i (S i)). lia.
    + specialize (IH best best_i (S i)). lia.
Qed.

Lemma argmin_lt (l : list Z) (k : nat) :
  argmin l = Ok k -> (k < List.length l)%nat.
Proof.
  destruct l as [|x r]; simpl; [discriminate|]. intros [= <-].
  pose proof (argmin_from_lt r x 0 1). lia.
Qed.

Lemma argmin_cons (x : Z) (r : list Z) : exists k, argmin (x :: r) = Ok k.
Proof. eexists. reflexivity. Qed.

Lemma item_lt (wvs : list Z) (k : nat) :
  (k < List.length wvs)%nat -> exists w, item wvs k = Ok w /\ In w wvs.
Proof.
  intros Hk. unfold item. destruct (nth_error wvs k) as [w|] eqn:Hn.
  - exists w. split; [reflexivity | eapply nth_error_In; eassumption].
  - apply nth_error_None in Hn. lia.
Qed.

Lemma item_last_cons (w : Z) (wvs : list Z) :
  exists w', item_last (w :: wvs) = Ok w' /\ In w' (w :: wvs).
Proof.
  unfold item_last. destruct (rev (w :: wvs)) as [|w' r] eqn:Hrev.
  - apply (f_equal (@List.length Z)) in Hrev. rewrite length_rev in Hrev.
    discriminate.
  - exists w'. split; [reflexivity|]. apply in_rev. rewrite Hrev. now left.
Qed.

(** Above the whole catalog the second handler runs: [wv_above] is left
    unassigned (and on an empty catalog the first handler already fails). *)
Lemma neighbours_above (wvs : list Z) (wavelength : Z) :
  (forall w, In w wvs -> w < wavelength) ->
  (wvs = [] /\
   neighbours_of (map (fun w => wavelength - w) wvs) wvs
   = ([warning], Raise IndexError)) \/
  (exists wv_below, In wv_below wvs /\
     neighbours_of (map (fun w => wavelength - w) wvs) wvs
     = ([warning], Ok (wv_below, None))).
Proof.
  intros Habove. destruct wvs as [|w0 r].
  - left. split; reflexivity.
  - right. unfold neighbours_of.
    set (diff := map (fun w => wavelength - w) (w0 :: r)).
    assert (filter (fun d => 0 <? d) diff = diff) as ->.
    { apply filter_all. intros d Hd. apply in_map_iff in Hd.
      destruct Hd as [w [<- Hw]]. apply Habove in Hw. apply Z.ltb_lt. lia. }
    assert (filter (fun d => d <? 0) diff = []) as ->.
    { apply filter_none. intros d Hd. apply in_map_iff in Hd.
      destruct Hd as [w [<- Hw]]. apply Habove in Hw. apply Z.ltb_ge. lia. }
    destruct (argmin_cons (wavelength - w0) (map (fun w => wavelength - w) r))
      as [k Hk].
    change (argmin diff = Ok k) in Hk. rewrite Hk.
    apply argmin_lt in Hk. unfold diff in Hk. rewrite length_map in Hk.
    destruct (item_lt _ _ Hk) as [wb [Hwb _]].
    destruct (item_last_cons w0 r) as [wl [Hl Hin]].
    exists wl. split; [exact Hin|].
    cbn [bind lift]. rewrite Hwb. cbn [bind lift argmin]. rewrite Hl.
    reflexivity.
Qed.

(** Below the whole (non-empty) catalog the first handler runs: the warning is
    printed and [wv_below] is the first catalog entry, [wvs[0]]. *)
Lemma neighbours_below (w0 : Z) (wvs : list Z) (wavelength : Z) :
  (forall w, In w (w0 :: wvs) -> wavelength < w) ->
  exists wv_above, In wv_above (w0 :: wvs) /\
    neighbours_of (map (fun w => wavelength - w) (w0 :: wvs)) (w0 :: wvs)
    = ([warning], Ok (w0, Some wv_above)).
Proof.
  intros Hbelow. unfold neighbours_of.
  set (diff := map (fun w => wavelength - w) (w0 :: wvs)).
  assert (filter (fun d => 0 <? d) diff = []) as ->.
  { apply filter_none. intros d Hd. apply in_map_iff in Hd.
    destruct Hd as [w [<- Hw]]. apply Hbelow in Hw. apply Z.ltb_ge. lia. }
  assert (filter (fun d => d <? 0) diff = diff) as ->.
  { apply filter_all. intros d Hd. apply in_map_iff in Hd.
    destruct Hd as [w [<- Hw]]. apply Hbelow in Hw. apply Z.ltb_lt. lia. }
  destruct (argmin_cons (wavelength - w0) (map (fun w => wavelength - w) wvs))
    as [k Hk].
  change (argmin diff = Ok k) in Hk. rewrite Hk.
  apply argmin_lt in Hk. unfold diff in Hk. rewrite length_map in Hk.
  destruct (item_lt _ _ Hk) as [wa [Hwa Hin]].
  exists wa. split; [exact Hin|].
  cbn [bind lift argmin try_except_ValueError print item nth_error app].
  rewrite Hwa. reflexivity.
Qed.


(** ** The int64 subtraction of line 156 *)

Ltac int64_lia :=
  unfold int64_min, int64_max in *;
  try change (2 ^ 63) with 9223372036854775808 in *;
  lia.

Lemma wrap64_id (z : Z) : int64_min <= z <= int64_max -> wrap64 z = z.
Proof.
  unfold wrap64, int64_min, int64_max.
  change (2 ^ 63) with 9223372036854775808.
  change (2 ^ 64) with 18446744073709551616.
  intros Hz. rewrite Z.mod_small; lia.
Qed.

Lemma in_int64_true (z : Z) :
  in_int64 z = true <-> int64_min <= z <= int64_max.
Proof.
  unfold in_int64. rewrite andb_true_iff, !Z.leb_le. tauto.
Qed.

Lemma forallb_in_int64 (wvs : list Z) :
  forallb in_int64 wvs = true <->
  (forall w, In w wvs -> int64_min <= w <= int64_max).
Proof.
  rewrite forallb_forall. split; intros Hall w Hw; apply in_int64_true; auto.
Qed.

(** When no difference leaves int64 the differences are the exact ones. *)
Lemma neighbours_no_wrap (wvs : list Z) (wavelength : Z) :
  (forall w, In w wvs -> int64_min <= wavelength - w <= int64_max) ->
  neighbours wvs wavelength
  = neighbours_of (map (fun w => wavelength - w) wvs) wvs.
Proof.
  intros Hfit. unfold neighbours. f_equal.
  apply map_ext_in. intros w Hw. apply wrap64_id. auto.
Qed.

Section Queries.

Context {V : Type} `{Float V}.

Variable lib : Library V.

Lemma find_col_take_rows (mask : list bool) (d : DataFrame V) (name : string) :
  find_col name (columns (take_rows mask d))
  = option_map (select_col mask) (find_col name (columns d)).
Proof.
  unfold take_rows. simpl. induction (columns d) as [|[n c] r IH]; simpl.
  - reflexivity.
  - destruct (String.eqb n name); [reflexivity | exact IH].
Qed.

Lemma getitem_take_rows (mask : list bool) (d : DataFrame V) (name : string)
    (c : column V) :
  find_col name (columns d) = Some c ->
  getitem (take_rows mask d) name
  = Ok {| s_index := select mask (index d); s_values := select_col mask c |}.
Proof.
  intros Hc. unfold getitem. rewrite find_col_take_rows, Hc. reflexivity.
Qed.

Lemma getitem_take_rows_missing (mask : list bool) (d : DataFrame V)
    (name : string) :
  find_col name (columns d) = None ->
  getitem (take_rows mask d) name = Raise (KeyError name).
Proof.
  intros Hc. unfold getitem. rewrite find_col_take_rows, Hc. reflexivity.
Qed.

(** Without a bound, and on a sorted index, the slice selects the rows within
    the bounds. *)
Lemma window_mask_regular (idx : list Z) (start_time end_time : option Z) :
  no_bound start_time end_time = true \/ nondecreasing idx = true ->
  window_mask lib idx start_time end_time
  = Ok (map (in_window start_time end_time) idx).
Proof.
  intros Hreg. unfold window_mask.
  destruct Hreg as [-> | ->]; [|rewrite orb_true_r]; reflexivity.
Qed.

(** An error of the slice of line 143 is the outcome of the query. *)
Lemma aot_slice_raises (m : Microtops V) (wavelength : Z)
    (start_time end_time : option Z) (x : exn) :
  window_mask lib (index (data m)) start_time end_time = Raise x ->
  aot lib m wavelength start_time end_time = ([], Raise x).
Proof. intros Hm. unfold aot, slice. rewrite Hm. reflexivity. Qed.

Lemma mem_false (x : Z) (l : list Z) : ~ In x l -> mem x l = false.
Proof.
  intros Hnot. destruct (mem x l) eqn:Hm; [|reflexivity].
  apply mem_In in Hm. contradiction.
Qed.

(** *** Claim C4 *)

(** C4 (as amended): for every wavelength [W] of the catalog for which the
    table has a column named ['AOT%d' % W], [aot] prints nothing and computes
    nothing: it returns that stored column restricted to the rows the slice
    of line 143 selects, or raises the error of that slice. Without a bound,
    and on a time index in ascending order, these rows are the rows within
    the window. *)
Theorem aot_catalog_passthrough (m : Microtops V) (wavelength : Z)
    (start_time end_time : option Z) (c : column V) :
  In wavelength (wavelengths m) ->
  find_col (aot_name wavelength) (columns (data m)) = Some c ->
  aot lib m wavelength start_time end_time
  = ([], match window_mask lib (index (data m)) start_time end_time with
         | Ok mask => Ok {| s_index := select mask (index (data m));
                            s_values := select_col mask c |}
         | Raise x => Raise x
         end) /\
  (no_bound start_time end_time = true \/
   nondecreasing (index (data m)) = true ->
   let mask := map (in_window start_time end_time) (index (data m)) in
   aot lib m wavelength start_time end_time
   = ([], Ok {| s_index := select mask (index (data m));
                s_values := select_col mask c |})).
Proof.
  intros Hin Hc.
  assert (aot lib m wavelength start_time end_time
          = ([], match window_mask lib (index (data m)) start_time end_time with
                 | Ok mask => Ok {| s_index := select mask (index (data m));
                                    s_values := select_col mask c |}
                 | Raise x => Raise x
                 end)) as Heq.
  { unfold aot, slice.
    destruct (window_mask lib (index (data m)) start_time end_time)
      as [mask|x]; [|reflexivity].
    cbn [lift bind]. apply mem_In in Hin. rewrite Hin.
    rewrite (getitem_take_rows _ _ _ _ Hc). reflexivity. }
  split; [exact Heq|].
  intros Hreg mask. rewrite Heq, (window_mask_regular _ _ _ Hreg). reflexivity.
Qed.

(** *** Claim C5 *)

(** C5 (as amended): on the interpolation path, for a wavelength and a
    catalog that fit int64, once the two neighbours are resolved (to nonzero
    wavelengths) and their columns are numeric, [aot] checks no domain:
    unless the slice of line 143 raises, it returns for every selected row
    the value
    [b * (W / wv_below) ** (-1 * (-1 * (log(b / a) / log(wv_below / wv_above))))]
    computed from the stored values [b], [a] of that row, whatever their
    sign. *)
Theorem aot_interpolation_total (m : Microtops V) (wavelength : Z)
    (start_time end_time : option Z) (out : list string)
    (wv_below wv_above : Z) (below above : list V) :
  ~ In wavelength (wavelengths m) ->
  int64_min <= wavelength <= int64_max ->
  (forall w, In w (wavelengths m) -> int64_min <= w <= int64_max) ->
  neighbours (wavelengths m) wavelength = (out, Ok (wv_below, Some wv_above)) ->
  wv_below <> 0 -> wv_above <> 0 ->
  find_col (aot_name wv_below) (columns (data m)) = Some (NumCol below) ->
  find_col (aot_name wv_above) (columns (data m)) = Some (NumCol above) ->
  aot lib m wavelength start_time end_time
  = match window_mask lib (index (data m)) start_time end_time with
    | Raise x => ([], Raise x)
    | Ok mask =>
        (out,
         Ok {| s_index := select mask (index (data m));
               s_values :=
                 NumCol
                   (zip_with
                      (fun b a =>
                         fmul b
                           (fpow (fdiv (of_int wavelength) (of_int wv_below))
                              (fmul (of_int (-1))
                                 (fmul (of_int (-1))
                                    (fdiv (flog (fdiv b a))
                                       (flog (fdiv (of_int wv_below)
                                                   (of_int wv_above))))))))
                      (select mask below) (select mask above)) |})
    end.
Proof.
  intros Hnot Hw Hwvs Hn _ _ Hb Ha. unfold aot, slice.
  destruct (window_mask lib (index (data m)) start_time end_time)
    as [mask|x]; [|reflexivity].
  cbn [lift bind]. rewrite (mem_false _ _ Hnot).
  apply in_int64_true in Hw. apply forallb_in_int64 in Hwvs.
  rewrite Hw, Hwvs, Hn.
  cbn [andb bind fst snd read_local ret lift].
  rewrite (getitem_take_rows _ _ _ _ Hb), (getitem_take_rows _ _ _ _ Ha).
  cbn. rewrite app_nil_r. reflexivity.
Qed.

(** *** Claim C7 *)

(** C7 (as amended): for a wavelength outside the catalog and strictly
    greater than every catalog wavelength, all fitting int64 and no
    difference [W - w] exceeding the largest int64, [aot] returns no series:
    it raises the error of the slice of line 143, or else prints the
    extrapolation warning and raises, the second handler having assigned
    [wv_below] and left [wv_above] unassigned ([UnboundLocalError] at line
    177, unless line 176 raises [KeyError] or, on an empty catalog, the first
    handler [IndexError]). *)
Theorem aot_above_maximum_raises (m : Microtops V) (wavelength : Z)
    (start_time end_time : option Z) :
  ~ In wavelength (wavelengths m) ->
  int64_min <= wavelength <= int64_max ->
  (forall w, In w (wavelengths m) ->
             int64_min <= w < wavelength /\ wavelength - w <= int64_max) ->
  (exists out x, aot lib m wavelength start_time end_time = (out, Raise x)) /\
  (forall mask,
      window_mask lib (index (data m)) start_time end_time = Ok mask ->
      exists x,
        aot lib m wavelength start_time end_time = ([warning], Raise x) /\
        (x = UnboundLocalError "wv_above" \/
         (exists w, In w (wavelengths m) /\ x = KeyError (aot_name w)) \/
         (wavelengths m = [] /\ x = IndexError))).
Proof.
  intros Hnot Hw Hwvs.
  assert (forall mask,
      window_mask lib (index (data m)) start_time end_time = Ok mask ->
      exists x,
        aot lib m wavelength start_time end_time = ([warning], Raise x) /\
        (x = UnboundLocalError "wv_above" \/
         (exists w, In w (wavelengths m) /\ x = KeyError (aot_name w)) \/
         (wavelengths m = [] /\ x = IndexError))) as Hmask.
  { intros mask Hm. unfold aot, slice. rewrite Hm. cbn [lift bind].
    rewrite (mem_false _ _ Hnot).
    assert (in_int64 wavelength = true) as -> by now apply in_int64_true.
    assert (forallb in_int64 (wavelengths m) = true) as ->.
    { apply forallb_in_int64. intros w Hin. apply Hwvs in Hin.
      unfold int64_max in *. lia. }
    cbn [andb].
    rewrite neighbours_no_wrap
      by (intros w Hin; apply Hwvs in Hin; unfold int64_min in *; lia).
    assert (forall w, In w (wavelengths m) -> w < wavelength) as Habove
        by (intros w Hin; apply Hwvs in Hin; lia).
    destruct (neighbours_above _ _ Habove) as [[Hnil Hn] | [wb [Hin Hn]]];
      rewrite Hn.
    - exists IndexError. split; [reflexivity | auto].
    - cbn [bind fst snd].
      destruct (find_col (aot_name wb) (columns (data m))) as [c|] eqn:Hc.
      + rewrite (getitem_take_rows _ _ _ _ Hc).
        exists (UnboundLocalError "wv_above"). split; [reflexivity | auto].
      + rewrite (getitem_take_rows_missing _ _ _ Hc).
        exists (KeyError (aot_name wb)). split; [reflexivity|].
        right. left. exists wb. auto. }
  split; [|exact Hmask].
  destruct (window_mask lib (index (data m)) start_time end_time)
    as [mask|x] eqn:Hm.
  - destruct (Hmask mask eq_refl) as [x [Hx _]]. eauto.
  - exists [], x. now apply aot_slice_raises.
Qed.

End Queries.

Lemma aot_catalog_passthrough_witness :
  aot (strict_library R) (example_file 0 0.2%R 0.1%R) 440 (Some 0) (Some 10)
  = ([], match window_mask (strict_library R) [0] (Some 0) (Some 10) with
         | Ok mask => Ok {| s_index := select mask [0];
                            s_values := select_col mask (NumCol [0.2%R]) |}
         | Raise x => Raise x
         end) /\
  (no_bound (Some 0) (Some 10) = true \/ nondecreasing [0] = true ->
   let mask := map (in_window (Some 0) (Some 10)) [0] in
   aot (strict_library R) (example_file 0 0.2%R 0.1%R) 440 (Some 0) (Some 10)
   = ([], Ok {| s_index := select mask [0];
                s_values := select_col mask (NumCol [0.2%R]) |})).
Proof.
  apply (aot_catalog_passthrough (strict_library R)
           (example_file 0 0.2%R 0.1%R) 440 (Some 0) (Some 10)
           (NumCol [0.2%R])).
  - simpl. left. reflexivity.
  - reflexivity.
Defined.

(** C4, counterexample: a table whose only AOT column is named [AOT0440] is
    constructed with catalog [[440]] under either interpreter, yet [aot(440)]
    looks up [AOT440] and raises [KeyError]. *)
Lemma aot_catalog_leading_zero :
  constructed (strict_library R) Py2 (leading_zero_file 0 0.2%R) /\
  constructed (strict_library R) Py3 (leading_zero_file 0 0.2%R) /\
  In 440 (wavelengths (leading_zero_file 0 0.2%R)) /\
  aot (strict_library R) (leading_zero_file 0 0.2%R) 440 None None
  = ([], Raise (KeyError "AOT440")).
Proof.
  split; [reflexivity|]. split; [reflexivity|].
  split; [simpl; left; reflexivity | reflexivity].
Qed.

Lemma aot_interpolation_total_witness :
  aot (strict_library R) negative_file 550 None None
  = match window_mask (strict_library R) [0] None None with
    | Raise x => ([], Raise x)
    | Ok mask =>
        ([],
         Ok {| s_index := select mask [0];
               s_values :=
                 NumCol
                   (zip_with
                      (fun b a : R =>
                         fmul b
                           (fpow (fdiv (of_int 550) (of_int 440))
                              (fmul (of_int (-1))
                                 (fmul (of_int (-1))
                                    (fdiv (flog (fdiv b a))
                                       (flog (fdiv (of_int 440)
                                                   (of_int 675))))))))
                      (select mask [(-0.2)%R]) (select mask [(-0.1)%R])) |})
    end.
Proof.
  apply (aot_interpolation_total (strict_library R) negative_file 550 None None
           [] 440 675 [(-0.2)%R] [(-0.1)%R]); try reflexivity.
  - simpl. intros [Heq | [Heq | [Heq | []]]]; discriminate.
  - int64_lia.
  - intros w Hw. simpl in Hw. destruct Hw as [<- | [<- | [<- | []]]]; int64_lia.
  - discriminate.
  - discriminate.
Defined.

(** C5, counterexample: the stored values at 440 and 675 nm are negative, and
    [aot(550)] raises nothing, prints nothing, and returns for that row an
    ordinary (negative) number. *)
Lemma aot_negative_row_silent :
  aot (strict_library R) negative_file 550 None None
  = ([], Ok {| s_index := [0];
               s_values :=
                 NumCol [interpolate 550 440 675 (-0.2)%R (-0.1)%R] |}) /\
  (interpolate 550 440 675 (-0.2)%R (-0.1)%R < 0)%R.
Proof.
  split; [reflexivity|].
  unfold interpolate. cbn [fmul fpow Float_R].
  match goal with |- (_ * Rpower ?x ?y < 0)%R =>
    assert (0 < Rpower x y)%R as Hpos by (unfold Rpower; apply exp_pos);
    generalize dependent (Rpower x y)
  end.
  intros p Hp. lra.
Qed.

Lemma aot_above_maximum_raises_witness :
  (exists out x,
      aot (strict_library R) (example_file 0 0.2%R 0.1%R) 900 None None
      = (out, Raise x)) /\
  (forall mask,
      window_mask (strict_library R) [0] None None = Ok mask ->
      exists x,
        aot (strict_library R) (example_file 0 0.2%R 0.1%R) 900 None None
        = ([warning], Raise x) /\
        (x = UnboundLocalError "wv_above" \/
         (exists w, In w [440; 675] /\ x = KeyError (aot_name w)) \/
         ([440; 675] = [] /\ x = IndexError))).
Proof.
  apply (aot_above_maximum_raises (strict_library R)
           (example_file 0 0.2%R 0.1%R) 900 None None).
  - simpl. intros [Heq | [Heq | []]]; discriminate.
  - int64_lia.
  - intros w Hw. simpl in Hw. destruct Hw as [<- | [<- | []]]; int64_lia.
Defined.

(** C7, counterexample: with the single channel [AOT-5] and the wavelength
    [2^63 - 1], which is outside the catalog and above it, the int64
    difference [2^63 - 1 - (-5)] wraps around to a negative number: the second
    [try] assigns [wv_above], and [aot] prints the warning and returns a
    series. *)
Lemma aot_above_maximum_wraps :
  constructed (strict_library R) Py3 (negative_channel_file 0 0.2%R) /\
  ~ In (2 ^ 63 - 1) (wavelengths (negative_channel_file 0 0.2%R)) /\
  (forall w, In w (wavelengths (negative_channel_file 0 0.2%R)) ->
             w < 2 ^ 63 - 1) /\
  aot (strict_library R) (negative_channel_file 0 0.2%R) (2 ^ 63 - 1) None None
  = ([warning],
     Ok {| s_index := [0];
           s_values :=
             NumCol [interpolate (2 ^ 63 - 1) (-5) (-5) 0.2%R 0.2%R] |}).
Proof.
  split; [reflexivity|]. split; [|split; [|reflexivity]].
  - simpl. intros [Heq | []]. discriminate.
  - simpl. intros w [<- | []]. reflexivity.
Qed.

Section Evaluations.

Context {V : Type} `{Float V}.

Variable lib : Library V.

(** *** Claim C1 *)

(** C1 (the code departs from it): on the example file, catalog [[440; 675]],
    [aot(550)] selects [wv_below = 440] and [wv_above = 440], not 675: the
    position returned by [argmin] indexes the filtered differences, and is
    used to index the whole catalog. The value returned is the formula on the
    column [AOT440] twice. *)
Theorem aot_example_550 (py : python) (t : Z) (a440 a675 : V) :
  constructed lib py (example_file t a440 a675) /\
  neighbours [440; 675] 550 = ([], Ok (440, Some 440)) /\
  aot lib (example_file t a440 a675) 550 None None
  = ([], Ok {| s_index := [t];
               s_values := NumCol [interpolate 550 440 440 a440 a440] |}).
Proof. destruct py; repeat split. Qed.

(** The same selection on a five-channel instrument. *)
Lemma neighbours_five_channels :
  neighbours [380; 440; 500; 675; 870] 550 = ([], Ok (500, Some 440)).
Proof. reflexivity. Qed.

(** *** Claim C6 *)

(** C6 (the code departs from it): below the whole catalog the warning is
    printed and [wv_below] is [wvs[0]], the first catalog entry; with the
    channels listed as [[675; 440]], [aot(400)] computes with
    [wv_below = 675] although the smallest catalog wavelength is 440. *)
Theorem aot_below_minimum_descending (py : python) (t : Z) (a675 a440 : V) :
  constructed lib py (descending_file t a675 a440) /\
  (forall w, In w (wavelengths (descending_file t a675 a440)) -> 400 < w) /\
  aot lib (descending_file t a675 a440) 400 None None
  = ([warning],
     Ok {| s_index := [t];
           s_values := NumCol [interpolate 400 675 675 a675 a675] |}).
Proof.
  split; [destruct py; reflexivity|]. split; [|reflexivity].
  simpl. intros w [<- | [<- | []]]; lia.
Qed.

End Evaluations.

(** *** Claim C10 *)

(** C10: over the reals, for positive optical thicknesses, positive and
    distinct wavelengths and a positive factor [c], the exponent of line 180
    is [-ln(AOT(wv_below)/AOT(wv_above)) / ln(wv_below/wv_above)] and does not
    change when both wavelengths are multiplied by [c]. *)
Theorem angstrom_scale_invariant (aot_below aot_above wv_below wv_above c : R) :
  (0 < aot_below)%R -> (0 < aot_above)%R ->
  (0 < wv_below)%R -> (0 < wv_above)%R -> wv_below <> wv_above ->
  (0 < c)%R ->
  angstrom aot_below aot_above wv_below wv_above
  = (- ln (aot_below / aot_above) / ln (wv_below / wv_above))%R /\
  angstrom aot_below aot_above (c * wv_below)%R (c * wv_above)%R
  = angstrom aot_below aot_above wv_below wv_above.
Proof.
  intros Hb Ha Hwb Hwa Hne Hc. unfold angstrom. cbn [fmul fdiv flog of_int Float_R].
  split.
  - unfold Rdiv. ring.
  - replace (c * wv_below / (c * wv_above))%R with (wv_below / wv_above)%R
      by (field; lra).
    reflexivity.
Qed.

Lemma angstrom_scale_invariant_witness :
  angstrom 0.2%R 0.1%R 440%R 675%R
  = (- ln (0.2 / 0.1) / ln (440 / 675))%R /\
  angstrom 0.2%R 0.1%R (0.001 * 440)%R (0.001 * 675)%R
  = angstrom 0.2%R 0.1%R 440%R 675%R.
Proof.
  apply (angstrom_scale_invariant 0.2 0.1 440 675 0.001); lra.
Defined.

(** ** Construction yields a catalog derived from the column names *)

Lemma load_file_constructed {V : Type} (lib : Library V)
    (read_csv : list (Z * string) -> result (DataFrame V))
    (parse : string -> result Z) (py : python) (content : list string)
    (skiprows : skiprows_arg) (data_start ending : string)
    (out : list string) (m : Microtops V) :
  _load_file lib read_csv parse py content skiprows data_start ending
  = (out, Ok m) ->
  constructed lib py m.
Proof.
  unfold _load_file, constructed.
  destruct (load_file_to_skip py content skiprows data_start ending)
    as [o [ts|e]]; [|discriminate].
  cbn [bind lift].
  destruct (read_csv (kept_lines content ts)) as [d|e]; [|discriminate].
  destruct (row_stamps parse d) as [stamps|e]; [|discriminate].
  destruct (_process_wavelengths lib py
              {| index := stamps; columns := columns d |})
    as [wvs|e] eqn:Hw; [|discriminate].
  cbn. intros [= _ <-]. exact Hw.
Qed.

(** * Further properties of the ingestion stage *)

Lemma load_file_to_skip_py2_total_witness :
  exists l,
    load_file_to_skip Py2
      ["junk"; "FIELDS:"; "DATE,TIME,AOT440"; "01/01/24,12:00:00,NaN";
       "01/01/24,12:05:00,0.2"; "END."]%string SkipNone "FIELDS:" "END."
    = ([], Ok (PyList l)).
Proof.
  apply load_file_to_skip_py2_total; [discriminate | left; reflexivity].
Defined.

Lemma footer_discarded_witness :
  let content :=
    ["junk"; "FIELDS:"; "DATE,TIME,AOT440"; "01/01/24,12:00:00,NaN";
     "01/01/24,12:05:00,0.2"; "END."]%string in
  seq_in (Z.of_nat (List.length content) - 1) (PyList [0; 1; 5; 3]) = true.
Proof.
  intro content.
  apply (footer_discarded Py2 content SkipNone "FIELDS:" "END." []
           (PyList [0; 1; 5; 3])); reflexivity.
Defined.

(** The header stage of the auto-detect mode when the marker is present. *)
Lemma resolve_auto_found (py : python) (content : list string)
    (data_start : string) (k : nat) :
  nth_error content k = Some data_start ->
  (forall j, (j < k)%nat -> nth_error content j <> Some data_start) ->
  resolve_skiprows py content SkipNone data_start
  = ([], Ok (Some (range_ py (Z.of_nat k + 1)))).
Proof.
  intros Hk Hfirst.
  assert (list_index data_start content = Ok k) as Hidx
      by (apply list_index_first; auto).
  assert (list_in data_start content = true) as Hin.
  { destruct (list_in data_start content) eqn:Hin; [reflexivity|].
    rewrite list_in_false in Hin. exfalso.
    apply (Hin data_start); [eapply nth_error_In; eassumption | reflexivity]. }
  simpl. rewrite Hin, Hidx. reflexivity.
Qed.

(** X1: the explicit-count mode. Whenever [read_csv] is reached, the
    discard set is [0..n] together with the
    footer index and the indices of the lines that contain ["Na"]. *)
Theorem int_mode_discards (py : python) (content : list string) (n : Z)
    (data_start ending : string) (out : list string) (ts : pyseq) :
  load_file_to_skip py content (SkipInt n) data_start ending = (out, Ok ts) ->
  forall i, seq_in i ts = true <->
    0 <= i <= n \/
    (last_item content = Ok ending /\ i = Z.of_nat (List.length content) - 1) \/
    In i (nan_lines content).
Proof.
  intros Hok i.
  destruct (load_file_to_skip_Ok _ _ _ _ _ _ _ Hok) as [hs [Hr Hts]].
  simpl in Hr. injection Hr as <-.
  rewrite Hts, seq_in_range.
  split; (intros [Hi | Hi]; [left; lia | right; exact Hi]).
Qed.

Lemma int_mode_discards_witness :
  let content :=
    ["junk"; "more junk"; "DATE,TIME,AOT440"; "01/01/24,12:00:00,NaN";
     "01/01/24,12:05:00,0.2"; "END."]%string in
  seq_in 1 (PyList [0; 1; 5; 3]) = true <->
    0 <= 1 <= 1 \/
    (last_item content = Ok "END."%string /\
     1 = Z.of_nat (List.length content) - 1) \/
    In 1 (nan_lines content).
Proof.
  intro content.
  apply (int_mode_discards Py2 content 1 "FIELDS:" "END." []
           (PyList [0; 1; 5; 3]) eq_refl 1).
Defined.

(** X2: without a marker line the auto-detect mode reaches [read_csv] on every
    non-empty file and under either interpreter: [to_skip] is the footer index
    (when the last line is the footer marker) followed by the indices of the
    lines that contain ["Na"]. *)
Theorem auto_detect_absent_total (py : python) (content : list string)
    (data_start ending last : string) :
  list_in data_start content = false ->
  last_item content = Ok last ->
  load_file_to_skip py content SkipNone data_start ending
  = ([], Ok (PyList ((if String.eqb last ending
                      then [Z.of_nat (List.length content) - 1] else [])
                     ++ nan_lines content))).
Proof.
  intros Habs Hl. unfold load_file_to_skip. simpl. rewrite Habs, Hl. simpl.
  destruct (String.eqb last ending); simpl;
    destruct (nan_lines content); reflexivity.
Qed.

Lemma auto_detect_absent_total_witness :
  load_file_to_skip Py3
    ["DATE,TIME,AOT440"; "01/01/24,12:00:00,NaN"; "01/01/24,12:05:00,0.2";
     "END."]%string SkipNone "FIELDS:" "END."
  = ([], Ok (PyList [3; 1])).
Proof.
  apply (auto_detect_absent_total Py3
           ["DATE,TIME,AOT440"; "01/01/24,12:00:00,NaN";
            "01/01/24,12:05:00,0.2"; "END."]%string
           "FIELDS:" "END." "END."); reflexivity.
Defined.

(** X3: under Python 3, when the header stage has produced a [range] object (the
    count mode, and the auto-detect mode with the marker found), [read_csv]
    is reached exactly when nothing has to be added to it: a footer outside
    the range raises [AttributeError] (line 85), and otherwise any line that
    contains ["Na"] raises [TypeError] (line 95). *)
Theorem py3_range_outcome (content : list string) (skiprows : skiprows_arg)
    (stop : Z) (data_start ending last : string) :
  resolve_skiprows Py3 content skiprows data_start
  = ([], Ok (Some (PyRange stop))) ->
  last_item content = Ok last ->
  let footer_outside :=
    last = ending /\ ~ (0 <= Z.of_nat (List.length content) - 1 < stop) in
  (footer_outside ->
   load_file_to_skip Py3 content skiprows data_start ending
   = ([], Raise AttributeError)) /\
  (~ footer_outside -> nan_lines content <> [] ->
   load_file_to_skip Py3 content skiprows data_start ending
   = ([], Raise TypeError)) /\
  (~ footer_outside -> nan_lines content = [] ->
   load_file_to_skip Py3 content skiprows data_start ending
   = ([], Ok (PyRange stop))).
Proof.
  intros Hr Hl footer_outside. unfold load_file_to_skip. rewrite Hr, Hl.
  simpl. destruct (String.eqb last ending) eqn:He; simpl.
  - apply String.eqb_eq in He.
    destruct ((0 <=? Z.of_nat (List.length content) - 1)
              && (Z.of_nat (List.length content) - 1 <? stop))%bool eqn:Hin;
      simpl.
    + apply andb_true_iff in Hin. rewrite Z.leb_le, Z.ltb_lt in Hin.
      repeat split.
      * intros [_ Hout]. exfalso. apply Hout. lia.
      * intros _ Hnan. destruct (nan_lines content); [congruence|].
        reflexivity.
      * intros _ ->. reflexivity.
    + apply andb_false_iff in Hin. rewrite Z.leb_gt, Z.ltb_ge in Hin.
      assert footer_outside as Hf by (split; [exact He | lia]).
      repeat split; try (intros Hnf; contradiction).
  - apply String.eqb_neq in He. repeat split.
    + intros [Heq _]. contradiction.
    + intros _ Hnan. destruct (nan_lines content); [congruence|].
      reflexivity.
    + intros _ ->. reflexivity.
Qed.

Lemma py3_range_outcome_witness :
  let content :=
    ["junk"; "FIELDS:"; "DATE,TIME,AOT440"; "01/01/24,12:05:00,0.2";
     "END."]%string in
  let footer_outside :=
    "END."%string = "END."%string /\
    ~ (0 <= Z.of_nat (List.length content) - 1 < 2) in
  (footer_outside ->
   load_file_to_skip Py3 content SkipNone "FIELDS:" "END."
   = ([], Raise AttributeError)) /\
  (~ footer_outside -> nan_lines content <> [] ->
   load_file_to_skip Py3 content SkipNone "FIELDS:" "END."
   = ([], Raise TypeError)) /\
  (~ footer_outside -> nan_lines content = [] ->
   load_file_to_skip Py3 content SkipNone "FIELDS:" "END."
   = ([], Ok (PyRange 2))).
Proof.
  intros content.
  apply (py3_range_outcome content SkipNone 2 "FIELDS:" "END." "END.");
    reflexivity.
Defined.

(** X7: an empty file. [content[-1]] raises [IndexError] in the three handled
    modes, before [read_csv] is called. *)
Theorem load_file_empty {V : Type} (lib : Library V)
    (read_csv : list (Z * string) -> result (DataFrame V))
    (parse : string -> result Z) (py : python) (skiprows : skiprows_arg)
    (data_start ending : string) :
  (forall ty, skiprows <> SkipOther ty) ->
  _load_file lib read_csv parse py [] skiprows data_start ending
  = ([], Raise IndexError).
Proof.
  intros Hmode. destruct skiprows as [|n|l|ty]; try reflexivity.
  now destruct (Hmode ty).
Qed.

Lemma load_file_empty_witness :
  _load_file (strict_library R) (fun _ => Ok {| index := []; columns := [] |})
             (fun _ => Ok 0) Py2 [] SkipNone "FIELDS:" "END."
  = ([], Raise IndexError).
Proof.
  apply load_file_empty. intros ty; discriminate.
Defined.

(** A [skiprows] of an unhandled type: the message is printed and [TypeError]
    raised whatever the file holds, before the footer is looked at and before
    [read_csv] is called. *)
Lemma load_file_unhandled_type {V : Type} (lib : Library V)
    (read_csv : list (Z * string) -> result (DataFrame V))
    (parse : string -> result Z) (py : python) (content : list string)
    (ty data_start ending : string) :
  _load_file lib read_csv parse py content (SkipOther ty) data_start ending
  = ([("Skiprows type not handled: " ++ ty)%string], Raise TypeError).
Proof. reflexivity. Qed.


(** * Further properties of the wavelength catalog *)

Section Catalog.

Context {V : Type}.

Variable lib : Library V.

Lemma ints_of_Forall2 (py : python) (xs : list string) (zs : list Z) :
  ints_of lib py xs = Ok zs <->
  Forall2 (fun x z => int_of_str py (int_unicode lib) x = Ok z) xs zs.
Proof.
  revert zs. induction xs as [|x r IH]; intros zs; simpl.
  - split.
    + intros [= <-]. constructor.
    + intros Hf. inversion Hf. reflexivity.
  - split.
    + destruct (int_of_str py (int_unicode lib) x) as [z|e] eqn:Hx;
        [|discriminate].
      destruct (ints_of lib py r) as [zs'|e] eqn:Hr; [|discriminate].
      intros [= <-]. constructor; [exact Hx | now apply IH].
    + intros Hf. inversion Hf as [|x' z r' zs' Hx Hr]; subst.
      rewrite Hx. apply IH in Hr. rewrite Hr. reflexivity.
Qed.

Lemma int_of_str_error (py : python) (u : string -> option Z) (s : string)
    (e : exn) :
  int_of_str py u s = Raise e -> e = ValueError.
Proof.
  unfold int_of_str.
  match goal with |- match ?p with _ => _ end = _ -> _ => destruct p end;
    [discriminate | now intros [= <-]].
Qed.

Lemma ints_of_raises (py : python) (xs : list string) (x : string) (e : exn) :
  In x xs -> int_of_str py (int_unicode lib) x = Raise e ->
  ints_of lib py xs = Raise ValueError.
Proof.
  induction xs as [|y r IH]; intros Hin Hx; [contradiction|]. simpl.
  destruct (int_of_str py (int_unicode lib) y) as [z|e'] eqn:Hy.
  - destruct Hin as [-> | Hin]; [congruence|].
    rewrite (IH Hin Hx). reflexivity.
  - apply int_of_str_error in Hy. now subst.
Qed.

(** X10: a column whose name contains ["AOT"] and whose remainder, once every
    ["AOT"] is removed, is refused by [int] makes [_process_wavelengths],
    hence construction, raise [ValueError]. *)
Theorem process_wavelengths_bad_column (py : python) (d : DataFrame V)
    (name : string) (e : exn) :
  In name (map fst (columns d)) ->
  contains "AOT" name = true ->
  int_of_str py (int_unicode lib) (replace "AOT" "" name) = Raise e ->
  _process_wavelengths lib py d = Raise ValueError.
Proof.
  intros Hin Hc He. unfold _process_wavelengths.
  apply (ints_of_raises py _ (replace "AOT" "" name) e); [|exact He].
  apply in_map. apply filter_In. split; assumption.
Qed.

End Catalog.

Lemma process_wavelengths_bad_column_witness :
  _process_wavelengths (strict_library R) Py3
    {| index := [0];
       columns := [("DATE", TxtCol ["01/01/24"]);
                   ("AOT440", NumCol [0.2%R]);
                   ("AOT_STD", NumCol [0.1%R])]%string |}
  = Raise ValueError.
Proof.
  apply (process_wavelengths_bad_column (strict_library R) Py3 _ "AOT_STD"
           ValueError).
  - simpl. right. right. left. reflexivity.
  - reflexivity.
  - reflexivity.
Defined.

(** Digit-group underscores: [AOT4_40] is a channel of 440 nm under Python 3
    and makes construction fail under Python 2. *)
Lemma process_wavelengths_underscore (a : R) :
  let d := {| index := [0]; columns := [("AOT4_40", NumCol [a])]%string |} in
  _process_wavelengths (strict_library R) Py3 d = Ok [440] /\
  _process_wavelengths (strict_library R) Py2 d = Raise ValueError.
Proof. split; reflexivity. Qed.

(** ** Formatting a wavelength and reading it back *)

Lemma digits_from_step (us after : bool) (c : ascii) (r : string) (acc dv : Z) :
  digit_of c = Some dv ->
  digits_from us after acc (String c r) = digits_from us true (10 * acc + dv) r.
Proof. intros Hd. cbn [digits_from]. rewrite Hd. reflexivity. Qed.

Ltac digit_step :=
  cbn [NilEmpty.string_of_uint Pos.of_uint_acc Pos.of_uint];
  erewrite digits_from_step by (vm_compute; reflexivity).

Lemma digits_from_pos (us : bool) (d : Decimal.uint) (acc : positive) :
  digits_from us true (Z.pos acc) (NilEmpty.string_of_uint d)
  = Some (Z.pos (Pos.of_uint_acc d acc)).
Proof.
  revert acc. induction d; intros acc; [reflexivity | digit_step ..];
    match goal with
    | |- digits_from _ _ ?a _ = Some (Z.pos (Pos.of_uint_acc _ ?b)) =>
        replace a with (Z.pos b) by lia; apply IHd
    end.
Qed.

Lemma digits_from_zero (us : bool) (d : Decimal.uint) :
  digits_from us true 0 (NilEmpty.string_of_uint d)
  = Some (Z.of_N (Pos.of_uint d)).
Proof.
  induction d; [reflexivity | digit_step ..];
    [exact IHd | apply digits_from_pos ..].
Qed.

Lemma unsigned_of_uint (us : bool) (d : Decimal.uint) :
  d <> Decimal.Nil ->
  unsigned_of us (NilEmpty.string_of_uint d) = Some (Z.of_N (Pos.of_uint d)).
Proof.
  intros Hnn. unfold unsigned_of.
  destruct d; [congruence | digit_step ..];
    [apply digits_from_zero | apply digits_from_pos ..].
Qed.

Lemma nilzero_to_uint (p : positive) :
  NilZero.string_of_uint (Pos.to_uint p)
  = NilEmpty.string_of_uint (Pos.to_uint p).
Proof.
  pose proof (DecimalPos.Unsigned.to_uint_nonnil p) as Hnn.
  destruct (Pos.to_uint p); [congruence | reflexivity ..].
Qed.

Lemma unsigned_of_to_uint (us : bool) (p : positive) :
  unsigned_of us (NilEmpty.string_of_uint (Pos.to_uint p)) = Some (Z.pos p).
Proof.
  rewrite unsigned_of_uint by apply DecimalPos.Unsigned.to_uint_nonnil.
  rewrite DecimalPos.Unsigned.of_to. reflexivity.
Qed.

(** Decimal numerals hold no white space, no sign, no letter and no character
    outside ASCII. *)
Lemma rstrip_uint (d : Decimal.uint) :
  rstrip (NilEmpty.string_of_uint d) = NilEmpty.string_of_uint d.
Proof.
  induction d; cbn [NilEmpty.string_of_uint rstrip]; try reflexivity;
    rewrite IHd; now destruct (NilEmpty.string_of_uint d).
Qed.

Lemma has_wide_uint (d : Decimal.uint) :
  has_wide (NilEmpty.string_of_uint d) = false.
Proof.
  induction d; cbn [NilEmpty.string_of_uint has_wide]; try reflexivity;
    rewrite IHd; reflexivity.
Qed.

Lemma replace_uint (d : Decimal.uint) :
  replace_from "AOT" "" (NilEmpty.string_of_uint d) 0
  = NilEmpty.string_of_uint d.
Proof.
  induction d; cbn [NilEmpty.string_of_uint replace_from]; try reflexivity;
    rewrite IHd; reflexivity.
Qed.

Lemma int_of_str_uint (py : python) (u : string -> option Z)
    (d : Decimal.uint) :
  d <> Decimal.Nil ->
  int_of_str py u (NilEmpty.string_of_uint d)
  = Ok (Z.of_N (Pos.of_uint d)).
Proof.
  intros Hnn. unfold int_of_str. rewrite has_wide_uint.
  assert (lstrip (NilEmpty.string_of_uint d) = NilEmpty.string_of_uint d) as ->
      by (destruct d; reflexivity).
  rewrite rstrip_uint.
  pose proof (unsigned_of_uint (match py with Py2 => false | Py3 => true end)
                d Hnn) as Hu.
  destruct d; [congruence | cbn [NilEmpty.string_of_uint] in *; rewrite Hu ..];
    reflexivity.
Qed.

Lemma int_of_str_neg_uint (py : python) (u : string -> option Z)
    (d : Decimal.uint) :
  d <> Decimal.Nil ->
  int_of_str py u (String "-" (NilEmpty.string_of_uint d))
  = Ok (- Z.of_N (Pos.of_uint d)).
Proof.
  intros Hnn. unfold int_of_str.
  assert (has_wide (String "-" (NilEmpty.string_of_uint d)) = false) as ->
      by (cbn [has_wide]; rewrite has_wide_uint; reflexivity).
  assert (lstrip (String "-" (NilEmpty.string_of_uint d))
          = String "-" (NilEmpty.string_of_uint d)) as -> by reflexivity.
  assert (rstrip (String "-" (NilEmpty.string_of_uint d))
          = String "-" (NilEmpty.string_of_uint d)) as ->.
  { cbn [rstrip]. rewrite rstrip_uint.
    now destruct (NilEmpty.string_of_uint d). }
  cbn match. rewrite (unsigned_of_uint _ d Hnn). reflexivity.
Qed.

(** ['%d' % z] read back by [int] is [z]. *)
Lemma int_of_str_of_int (py : python) (u : string -> option Z) (z : Z) :
  int_of_str py u (str_of_int z) = Ok z.
Proof.
  unfold str_of_int. destruct z as [|p|p]; [now destruct py | |];
    cbn [Z.to_int NilZero.string_of_int]; rewrite nilzero_to_uint.
  - rewrite int_of_str_uint by apply DecimalPos.Unsigned.to_uint_nonnil.
    rewrite DecimalPos.Unsigned.of_to. reflexivity.
  - rewrite int_of_str_neg_uint by apply DecimalPos.Unsigned.to_uint_nonnil.
    rewrite DecimalPos.Unsigned.of_to. reflexivity.
Qed.

Lemma replace_str_of_int (z : Z) :
  replace_from "AOT" "" (str_of_int z) 0 = str_of_int z.
Proof.
  unfold str_of_int. destruct z as [|p|p]; [reflexivity | |];
    cbn [Z.to_int NilZero.string_of_int]; rewrite nilzero_to_uint.
  - apply replace_uint.
  - cbn [replace_from]. cbn. f_equal. apply replace_uint.
Qed.

Lemma contains_aot_name (w : Z) : contains "AOT" (aot_name w) = true.
Proof. unfold aot_name. cbn. now destruct (str_of_int w). Qed.

Lemma int_of_str_aot_name (py : python) (u : string -> option Z) (w : Z) :
  int_of_str py u (replace "AOT" "" (aot_name w)) = Ok w.
Proof.
  assert (replace "AOT" "" (aot_name w) = str_of_int w) as ->.
  { unfold aot_name, replace. cbn [append replace_from]. cbn [prefix].
    assert (prefix "" (str_of_int w) = true) as Hp
        by now destruct (str_of_int w).
    cbn. rewrite Hp. cbn. apply replace_str_of_int. }
  apply int_of_str_of_int.
Qed.


Lemma Forall2_In_l {A B : Type} (R : A -> B -> Prop) (xs : list A)
    (ys : list B) (x : A) :
  Forall2 R xs ys -> In x xs -> exists y, In y ys /\ R x y.
Proof.
  induction 1 as [|x' y' xs' ys' Hxy _ IH]; intros Hin; [contradiction|].
  destruct Hin as [<- | Hin].
  - exists y'. split; [now left | exact Hxy].
  - destruct (IH Hin) as [y [Hy Hr]]. exists y. split; [now right | exact Hr].
Qed.
Section CatalogQueries.

Context {V : Type} `{Float V}.

Variable lib : Library V.

Lemma find_col_In (name : string) (cols : list (string * column V))
    (c : column V) :
  find_col name cols = Some c -> In name (map fst cols).
Proof.
  induction cols as [|[n c'] r IH]; simpl; [discriminate|].
  destruct (String.eqb n name) eqn:Heq.
  - apply String.eqb_eq in Heq. auto.
  - intros Hf. right. now apply IH.
Qed.

(** X12: in a constructed object every column named ['AOT%d' % w] has its
    wavelength in the catalog, and [aot(w)] prints nothing and computes
    nothing: it returns that column restricted to the rows the slice of line
    143 selects, or raises the error of that slice. *)
Theorem aot_canonical_column (py : python) (m : Microtops V) (w : Z)
    (start_time end_time : option Z) (c : column V) :
  constructed lib py m ->
  find_col (aot_name w) (columns (data m)) = Some c ->
  In w (wavelengths m) /\
  aot lib m w start_time end_time
  = ([], match window_mask lib (index (data m)) start_time end_time with
         | Ok mask => Ok {| s_index := select mask (index (data m));
                            s_values := select_col mask c |}
         | Raise x => Raise x
         end).
Proof.
  intros Hcons Hc.
  assert (In w (wavelengths m)) as Hin.
  { unfold constructed, _process_wavelengths in Hcons.
    apply ints_of_Forall2 in Hcons.
    assert (In (replace "AOT" "" (aot_name w))
               (map (replace "AOT" "")
                    (filter (contains "AOT") (map fst (columns (data m))))))
      as Hname.
    { apply in_map. apply filter_In.
      split; [eapply find_col_In; eassumption | apply contains_aot_name]. }
    destruct (Forall2_In_l _ _ _ _ Hcons Hname) as [w' [Hw' Hparse]].
    rewrite int_of_str_aot_name in Hparse. injection Hparse as ->. exact Hw'. }
  split; [exact Hin|].
  unfold aot, slice.
  destruct (window_mask lib (index (data m)) start_time end_time)
    as [mask|x]; [|reflexivity].
  cbn [lift bind]. apply mem_In in Hin. rewrite Hin.
  rewrite (getitem_take_rows _ _ _ _ Hc). reflexivity.
Qed.

(** X13: a table without any AOT column. For every wavelength that fits int64
    the query raises: the error of the slice of line 143, or else, after the
    warning, [IndexError] (line 165, [wvs[0]] on the empty catalog). *)
Theorem aot_empty_catalog (m : Microtops V) (wavelength : Z)
    (start_time end_time : option Z) :
  wavelengths m = [] ->
  int64_min <= wavelength <= int64_max ->
  aot lib m wavelength start_time end_time
  = match window_mask lib (index (data m)) start_time end_time with
    | Ok _ => ([warning], Raise IndexError)
    | Raise x => ([], Raise x)
    end.
Proof.
  intros Hw Hfit. unfold aot, slice. rewrite Hw.
  destruct (window_mask lib (index (data m)) start_time end_time)
    as [mask|x]; [|reflexivity].
  cbn [lift bind mem existsb forallb]. apply in_int64_true in Hfit.
  rewrite Hfit. reflexivity.
Qed.

End CatalogQueries.

Lemma aot_canonical_column_witness :
  In 675 (wavelengths (example_file 0 0.2%R 0.1%R)) /\
  aot (strict_library R) (example_file 0 0.2%R 0.1%R) 675 None None
  = ([], match window_mask (strict_library R) [0] None None with
         | Ok mask => Ok {| s_index := select mask [0];
                            s_values := select_col mask (NumCol [0.1%R]) |}
         | Raise x => Raise x
         end).
Proof.
  apply (aot_canonical_column (strict_library R) Py3
           (example_file 0 0.2%R 0.1%R) 675 None None (NumCol [0.1%R]));
    reflexivity.
Defined.

Lemma aot_empty_catalog_witness :
  aot (strict_library R)
      {| data := {| index := [0];
                    columns := [("DATE", TxtCol ["01/01/24"]);
                                ("TIME", TxtCol ["12:00:00"])]%string |};
         wavelengths := [] |} 550 None None
  = match window_mask (strict_library R) [0] None None with
    | Ok _ => ([warning], Raise IndexError)
    | Raise x => ([], Raise x)
    end.
Proof. apply aot_empty_catalog; [reflexivity | int64_lia]. Defined.

(** * Further properties of the neighbour selection *)

Lemma filter_nonempty_argmin (f : Z -> bool) (diff : list Z) (d : Z) :
  In d diff -> f d = true ->
  exists k, argmin (filter f diff) = Ok k /\ (k < List.length diff)%nat.
Proof.
  intros Hin Hf.
  assert (In d (filter f diff)) as Hd by (apply filter_In; auto).
  destruct (filter f diff) as [|x r] eqn:Hfl; [contradiction|].
  destruct (argmin_cons x r) as [k Hk]. exists k. split; [exact Hk|].
  apply argmin_lt in Hk. rewrite <- Hfl in Hk.
  pose proof (filter_length_le f diff). lia.
Qed.

(** Strictly inside the catalog's range both neighbours are resolved to
    catalog wavelengths and nothing is printed. *)
Lemma neighbours_between (wvs : list Z) (wavelength lo hi : Z) :
  In lo wvs -> lo < wavelength -> In hi wvs -> wavelength < hi ->
  exists wv_below wv_above,
    In wv_below wvs /\ In wv_above wvs /\
    neighbours_of (map (fun w => wavelength - w) wvs) wvs
    = ([], Ok (wv_below, Some wv_above)).
Proof.
  intros Hlo Hlt Hhi Hgt. unfold neighbours_of.
  set (diff := map (fun w => wavelength - w) wvs).
  assert (List.length diff = List.length wvs) as Hlen
      by (unfold diff; apply length_map).
  destruct (filter_nonempty_argmin (fun d => 0 <? d) diff (wavelength - lo))
    as [k [Hk Hkl]].
  { unfold diff. apply in_map_iff. eauto. }
  { apply Z.ltb_lt. lia. }
  destruct (filter_nonempty_argmin (fun d => d <? 0) diff (wavelength - hi))
    as [k' [Hk' Hkl']].
  { unfold diff. apply in_map_iff. eauto. }
  { apply Z.ltb_lt. lia. }
  rewrite Hlen in Hkl, Hkl'.
  destruct (item_lt _ _ Hkl) as [wb [Hwb Hinb]].
  destruct (item_lt _ _ Hkl') as [wa [Hwa Hina]].
  exists wb, wa. split; [exact Hinb|]. split; [exact Hina|].
  rewrite Hk. cbn [bind lift]. rewrite Hwb.
  cbn [bind lift try_except_ValueError app]. rewrite Hk'.
  cbn [bind lift]. rewrite Hwa. reflexivity.
Qed.

Section Warnings.

Context {V : Type} `{Float V}.

Variable lib : Library V.

Lemma aot_output (m : Microtops V) (wavelength : Z)
    (start_time end_time : option Z) (mask : list bool) :
  window_mask lib (index (data m)) start_time end_time = Ok mask ->
  mem wavelength (wavelengths m) = false ->
  in_int64 wavelength = true ->
  forallb in_int64 (wavelengths m) = true ->
  fst (aot lib m wavelength start_time end_time)
  = fst (neighbours (wavelengths m) wavelength).
Proof.
  intros Hm Hmem Hw Hwvs. unfold aot, slice. rewrite Hm. cbn [lift bind].
  rewrite Hmem, Hw, Hwvs. cbn [andb].
  destruct (neighbours (wavelengths m) wavelength) as [o [[wb wa]|e]];
    [|reflexivity].
  cbn [bind fst snd].
  destruct (getitem _ (aot_name wb)) as [sb|e]; cbn [lift bind];
    [|cbn; now rewrite app_nil_r].
  destruct wa as [wa|]; cbn [read_local ret raise bind];
    [|cbn; now rewrite app_nil_r].
  destruct (getitem _ (aot_name wa)) as [sa|e]; cbn [lift bind];
    [|cbn; now rewrite app_nil_r].
  destruct (interpolate_series _ _ _ _ _); cbn; now rewrite app_nil_r.
Qed.

(** X14: for a wavelength outside the catalog, where wavelength, catalog and
    their differences fit int64 and the slice of line 143 does not raise,
    [aot] prints the extrapolation warning, once, exactly when the wavelength
    is not strictly between two catalog wavelengths; otherwise it prints
    nothing. *)
Theorem aot_warning_iff (m : Microtops V) (wavelength : Z)
    (start_time end_time : option Z) (mask : list bool) :
  window_mask lib (index (data m)) start_time end_time = Ok mask ->
  ~ In wavelength (wavelengths m) ->
  int64_min <= wavelength <= int64_max ->
  (forall w, In w (wavelengths m) ->
             int64_min <= w <= int64_max /\
             int64_min <= wavelength - w <= int64_max) ->
  let inside :=
    (exists lo, In lo (wavelengths m) /\ lo < wavelength) /\
    (exists hi, In hi (wavelengths m) /\ wavelength < hi) in
  (inside -> fst (aot lib m wavelength start_time end_time) = []) /\
  (~ inside -> fst (aot lib m wavelength start_time end_time) = [warning]).
Proof.
  intros Hm Hnot Hfit Hwvs inside.
  rewrite (aot_output m wavelength start_time end_time mask Hm
             (mem_false _ _ Hnot)).
  2: now apply in_int64_true.
  2: { apply forallb_in_int64. intros w Hin. now apply Hwvs in Hin. }
  rewrite neighbours_no_wrap by (intros w Hin; now apply Hwvs in Hin).
  split.
  - intros [[lo [Hlo Hlt]] [hi [Hhi Hgt]]].
    destruct (neighbours_between _ _ _ _ Hlo Hlt Hhi Hgt)
      as [wb [wa [_ [_ ->]]]].
    reflexivity.
  - intros Hout.
    destruct (existsb (fun w => w <? wavelength) (wavelengths m)) eqn:Hlo.
    + apply existsb_exists in Hlo. destruct Hlo as [lo [Hlo Hlt]].
      apply Z.ltb_lt in Hlt.
      assert (forall w, In w (wavelengths m) -> w < wavelength) as Habove.
      { intros w Hw. destruct (Z_lt_ge_dec w wavelength) as [|Hge]; [assumption|].
        exfalso. apply Hout. split; [eauto|]. exists w. split; [exact Hw|].
        assert (w <> wavelength) by (intros ->; contradiction). lia. }
      destruct (neighbours_above _ _ Habove) as [[_ ->] | [wb [_ ->]]];
        reflexivity.
    + assert (forall w, In w (wavelengths m) -> wavelength < w) as Hbelow.
      { intros w Hw. destruct (Z_lt_ge_dec wavelength w) as [|Hge]; [assumption|].
        assert (w <> wavelength) by (intros ->; contradiction).
        assert (existsb (fun w => w <? wavelength) (wavelengths m) = true)
          as Ht; [|congruence].
        apply existsb_exists. exists w. split; [exact Hw | apply Z.ltb_lt; lia]. }
      destruct (wavelengths m) as [|w0 r] eqn:Hw; [reflexivity|].
      destruct (neighbours_below w0 r wavelength Hbelow) as [wa [_ ->]].
      reflexivity.
Qed.

End Warnings.

Lemma aot_warning_iff_witness :
  let inside :=
    (exists lo, In lo [440; 675] /\ lo < 550) /\
    (exists hi, In hi [440; 675] /\ 550 < hi) in
  (inside ->
   fst (aot (strict_library R) (example_file 0 0.2%R 0.1%R) 550 None None)
   = []) /\
  (~ inside ->
   fst (aot (strict_library R) (example_file 0 0.2%R 0.1%R) 550 None None)
   = [warning]).
Proof.
  apply (aot_warning_iff (strict_library R) (example_file 0 0.2%R 0.1%R) 550
           None None [true]).
  - reflexivity.
  - simpl. intros [Heq | [Heq | []]]; discriminate.
  - int64_lia.
  - intros w Hw. simpl in Hw. destruct Hw as [<- | [<- | []]]; int64_lia.
Defined.

(** ** What [argmin] selects *)





(** ** Ascending catalogs *)





(** * Further properties of the Angstrom formula, over the reals *)

Lemma ln_ratio_swap (a b : R) :
  (0 < a)%R -> (0 < b)%R -> ln (a / b) = (- ln (b / a))%R.
Proof.
  intros Ha Hb. replace (a / b)%R with (/ (b / a))%R by (field; lra).
  apply ln_Rinv. apply Rdiv_lt_0_compat; assumption.
Qed.

Lemma ln_ratio_nonzero (a b : R) :
  (0 < a)%R -> (0 < b)%R -> a <> b -> ln (a / b) <> 0%R.
Proof.
  intros Ha Hb Hne. apply ln_neq_0.
  - intros Heq. apply Hne.
    apply (Rmult_eq_compat_r b) in Heq. field_simplify in Heq; lra.
  - apply Rdiv_lt_0_compat; assumption.
Qed.

(** X17: the interpolated value passes through the two measured points. For
    positive optical thicknesses and distinct positive neighbour wavelengths,
    the formula of lines 180-183 gives [AOT(wv_below)] at
    [wavelength = wv_below] and [AOT(wv_above)] at [wavelength = wv_above]. *)
Theorem interpolate_endpoints (wv_below wv_above : Z) (aot_below aot_above : R) :
  0 < wv_below -> 0 < wv_above -> wv_below <> wv_above ->
  (0 < aot_below)%R -> (0 < aot_above)%R ->
  interpolate wv_below wv_below wv_above aot_below aot_above = aot_below /\
  interpolate wv_above wv_below wv_above aot_below aot_above = aot_above.
Proof.
  intros Hb Ha Hne Hx Hy.
  assert (0 < IZR wv_below)%R as Hb' by (apply (IZR_lt 0); exact Hb).
  assert (0 < IZR wv_above)%R as Ha' by (apply (IZR_lt 0); exact Ha).
  assert (IZR wv_below <> IZR wv_above) as Hne'
      by (intros Heq; apply eq_IZR in Heq; contradiction).
  unfold interpolate, angstrom. cbn [fmul fdiv flog fpow of_int Float_R].
  set (b := IZR wv_below) in *. set (a := IZR wv_above) in *.
  split.
  - replace (b / b)%R with 1%R by (field; lra).
    unfold Rpower. rewrite ln_1, Rmult_0_r, exp_0. lra.
  - pose proof (ln_ratio_nonzero b a Hb' Ha' Hne') as Hl.
    unfold Rpower. rewrite (ln_ratio_swap a b Ha' Hb').
    replace (-1 * (-1 * (ln (aot_below / aot_above) / ln (b / a)))
             * - ln (b / a))%R
      with (- ln (aot_below / aot_above))%R by (field; exact Hl).
    rewrite <- (ln_ratio_swap aot_above aot_below Hy Hx).
    rewrite exp_ln by (apply Rdiv_lt_0_compat; assumption).
    field. lra.
Qed.

Lemma interpolate_endpoints_witness :
  interpolate 440 440 675 0.2%R 0.1%R = 0.2%R /\
  interpolate 675 440 675 0.2%R 0.1%R = 0.1%R.
Proof.
  apply (interpolate_endpoints 440 675 0.2 0.1); try lia; try lra.
Defined.

(** X18: the exponent does not depend on which of the two neighbours is called
    "below": exchanging the two wavelengths together with their optical
    thicknesses leaves it unchanged. *)
Theorem angstrom_symmetric (aot_below aot_above wv_below wv_above : R) :
  (0 < aot_below)%R -> (0 < aot_above)%R ->
  (0 < wv_below)%R -> (0 < wv_above)%R ->
  angstrom aot_above aot_below wv_above wv_below
  = angstrom aot_below aot_above wv_below wv_above.
Proof.
  intros Hb Ha Hwb Hwa. unfold angstrom. cbn [fmul fdiv flog of_int Float_R].
  rewrite (ln_ratio_swap aot_above aot_below Ha Hb),
          (ln_ratio_swap wv_above wv_below Hwa Hwb).
  unfold Rdiv. rewrite Rinv_opp. ring.
Qed.

Lemma angstrom_symmetric_witness :
  angstrom 0.1%R 0.2%R 675%R 440%R = angstrom 0.2%R 0.1%R 440%R 675%R.
Proof. apply angstrom_symmetric; lra. Defined.

(** * The time index *)

(** X8: a parsed table that has rows but no [DATE] column (or a text [DATE]
    column and no [TIME] column) makes construction raise [KeyError] on that
    name. *)
Theorem load_file_missing_date_time {V : Type} (lib : Library V)
    (read_csv : list (Z * string) -> result (DataFrame V))
    (parse : string -> result Z) (py : python) (content : list string)
    (skiprows : skiprows_arg) (data_start ending : string)
    (out : list string) (ts : pyseq) (d : DataFrame V) :
  load_file_to_skip py content skiprows data_start ending = (out, Ok ts) ->
  read_csv (kept_lines content ts) = Ok d ->
  index d <> [] ->
  (find_col "DATE" (columns d) = None ->
   _load_file lib read_csv parse py content skiprows data_start ending
   = (out, Raise (KeyError "DATE"))) /\
  (forall dates,
      find_col "DATE" (columns d) = Some (TxtCol dates) ->
      find_col "TIME" (columns d) = None ->
      _load_file lib read_csv parse py content skiprows data_start ending
      = (out, Raise (KeyError "TIME"))).
Proof.
  intros Hts Hd Hrows. unfold _load_file. rewrite Hts. cbn [bind lift].
  rewrite Hd. unfold row_stamps.
  destruct (index d) as [|t r]; [congruence|].
  split.
  - intros ->. cbn. now rewrite app_nil_r.
  - intros dates -> ->. cbn. now rewrite app_nil_r.
Qed.

Lemma load_file_missing_date_time_witness :
  let content := ["TIME,AOT440"; "12:00:00,0.2"]%string in
  let d := {| index := [0];
              columns := [("TIME", TxtCol ["12:00:00"]);
                          ("AOT440", NumCol [0.2%R])]%string |} in
  (find_col "DATE" (columns d) = None ->
   _load_file (strict_library R) (fun _ => Ok d) (fun _ => Ok 0) Py2 content
              SkipNone "FIELDS:" "END."
   = ([], Raise (KeyError "DATE"))) /\
  (forall dates,
      find_col "DATE" (columns d) = Some (TxtCol dates) ->
      find_col "TIME" (columns d) = None ->
      _load_file (strict_library R) (fun _ => Ok d) (fun _ => Ok 0) Py2
                 content SkipNone "FIELDS:" "END."
      = ([], Raise (KeyError "TIME"))).
Proof.
  intros content d.
  apply (load_file_missing_date_time (strict_library R) (fun _ => Ok d)
           (fun _ => Ok 0) Py2 content SkipNone "FIELDS:" "END." []
           (PyList []) d).
  - reflexivity.
  - reflexivity.
  - discriminate.
Defined.
